(** * endpoints.py: the batch / centra / delivery backend

    A shallow embedding of [src/endpoints.py]: the three tables of
    [create_new_database], the request and response models, the connection
    with its pending transaction, and every route handler, followed by the
    properties of the handlers.

    Conventions of the embedding.
    - Python [int] is [Z].  The engine stores signed 64-bit integers
      ([int64]): the integer columns of a row are of that type, and the
      driver refuses to bind a Python int outside that range
      ([OverflowError], see [bind_ints]).
    - A [datetime] is carried as the ISO-8601 text that the driver stores for
      it in a DATETIME column and that the response models read back; the
      engine compares such values as text, which is what [ORDER BY] uses.
    - A table is the list of its rows in scan order (rowid order) together
      with its AUTOINCREMENT counter.  The declared NOT NULL columns are the
      non-optional fields of the row records.
    - A handler is a computation over a connection: [conn.execute] works on the
      pending transaction, [conn.commit] makes it durable, [conn.close] (or an
      exception that leaves the handler) drops what was not committed. *)

From Stdlib Require Import ZArith List String Ascii Bool Lia.
From Stdlib Require Import Sorting.Sorted Sorting.Permutation.
From Stdlib Require Import Logic.Eqdep_dec.
Import ListNotations.

Local Open Scope string_scope.
Local Open Scope list_scope.
Local Open Scope Z_scope.

Set Implicit Arguments.

(** ** Exceptions and results *)

Definition datetime := string.

Inductive exn : Type :=
| HTTPException (status_code : Z) (detail : string)
| ValidationError (model field : string)
| OperationalError (msg : string)
| IntegrityError (msg : string)
| TypeError (msg : string)
| OverflowError (msg : string).

Inductive result (A : Type) : Type :=
| Ok (a : A)
| Raise (e : exn).

Arguments Ok {A} a.
Arguments Raise {A} e.

(** What the client sees: 200 for a returned model, the code of an
    [HTTPException], 500 for any other exception that leaves the handler. *)
Definition status_code {A : Type} (r : result A) : Z :=
  match r with
  | Ok _ => 200
  | Raise (HTTPException c _) => c
  | Raise _ => 500
  end.

(** ** Model fields: a keyword that was not passed, or passed with a value
    that may be [None] *)

Inductive given (A : Type) : Type :=
| Unset
| Given (v : option A).

Arguments Unset {A}.
Arguments Given {A} v.

(** A field declared [name: T] (no default). *)
Definition required {A : Type} (model field : string) (g : given A) : result A :=
  match g with
  | Given (Some a) => Ok a
  | Given None => Raise (ValidationError model field)
  | Unset => Raise (ValidationError model field)
  end.

(** A field declared [name: Optional[T] = None]. *)
Definition optional {A : Type} (g : given A) : option A :=
  match g with
  | Given v => v
  | Unset => None
  end.

Definition rbind {A B : Type} (r : result A) (k : A -> result B) : result B :=
  match r with
  | Ok a => k a
  | Raise e => Raise e
  end.

(** ** Stored integers *)

(** The range of an INTEGER of the engine. *)
Definition in_int64 (z : Z) : bool :=
  (- 2 ^ 63 <=? z) && (z <? 2 ^ 63).

Record int64 : Type := {
  int64_val :> Z;
  int64_range : in_int64 int64_val = true
}.

Definition wrap64 (z : Z) : Z := (z + 2 ^ 63) mod 2 ^ 64 - 2 ^ 63.

Lemma wrap64_range (z : Z) : in_int64 (wrap64 z) = true.
Proof.
  unfold in_int64, wrap64.
  pose proof (Z.mod_pos_bound (z + 2 ^ 63) (2 ^ 64) ltac:(lia)) as H.
  apply andb_true_intro. split; [apply Z.leb_le | apply Z.ltb_lt]; lia.
Qed.

(** The stored form of a Python int.  The driver only lets ints of the
    64-bit range through ([bind_ints]); on that range this is the int
    itself ([val_stored]). *)
Definition stored (z : Z) : int64 :=
  {| int64_val := wrap64 z; int64_range := wrap64_range z |}.

Definition overflow : exn :=
  OverflowError "Python int too large to convert to SQLite INTEGER".

(** Binding the integer parameters of a statement. *)
Definition bind_ints (params : list Z) : result unit :=
  if forallb in_int64 params then Ok tt else Raise overflow.

(** ** The tables of [create_new_database] *)

Module batch_id.
Record row : Type := {
  Batch_ID_64 : int64;
  RawWeight_64 : int64;
  InTimeRaw : datetime;
  InTimeWet : option datetime;
  OutTimeWet : option datetime;
  WetWeight_64 : option int64;
  InTimeDry : option datetime;
  OutTimeDry : option datetime;
  DryWeight_64 : option int64;
  InTimePowder : option datetime;
  OutTimePowder : option datetime;
  PowderWeight_64 : option int64;
  Status : string;
  Centra_ID_64 : int64;
  Package_ID_64 : option int64;
  WeightRescale_64 : option int64
}.

(** The integer columns as the Python side reads them. *)
Definition Batch_ID (r : row) : Z := Batch_ID_64 r.
Definition RawWeight (r : row) : Z := RawWeight_64 r.
Definition WetWeight (r : row) : option Z := option_map int64_val (WetWeight_64 r).
Definition DryWeight (r : row) : option Z := option_map int64_val (DryWeight_64 r).
Definition PowderWeight (r : row) : option Z :=
  option_map int64_val (PowderWeight_64 r).
Definition Centra_ID (r : row) : Z := Centra_ID_64 r.
Definition Package_ID (r : row) : option Z := option_map int64_val (Package_ID_64 r).
Definition WeightRescale (r : row) : option Z :=
  option_map int64_val (WeightRescale_64 r).

Definition columns : list string :=
  ["Batch_ID"; "RawWeight"; "InTimeRaw"; "InTimeWet"; "OutTimeWet";
   "WetWeight"; "InTimeDry"; "OutTimeDry"; "DryWeight"; "InTimePowder";
   "OutTimePowder"; "PowderWeight"; "Status"; "Centra_ID"; "Package_ID";
   "WeightRescale"].

(** [SET InTimeWet = ?, OutTimeWet = ?, WetWeight = ?] *)
Definition set_wet (i o : datetime) (w : Z) (r : row) : row :=
  {| Batch_ID_64 := Batch_ID_64 r; RawWeight_64 := RawWeight_64 r;
     InTimeRaw := InTimeRaw r;
     InTimeWet := Some i; OutTimeWet := Some o; WetWeight_64 := Some (stored w);
     InTimeDry := InTimeDry r; OutTimeDry := OutTimeDry r;
     DryWeight_64 := DryWeight_64 r;
     InTimePowder := InTimePowder r; OutTimePowder := OutTimePowder r;
     PowderWeight_64 := PowderWeight_64 r; Status := Status r;
     Centra_ID_64 := Centra_ID_64 r;
     Package_ID_64 := Package_ID_64 r; WeightRescale_64 := WeightRescale_64 r |}.

(** [SET InTimeDry = ?, OutTimeDry = ?, DryWeight = ?] *)
Definition set_dry (i o : datetime) (w : Z) (r : row) : row :=
  {| Batch_ID_64 := Batch_ID_64 r; RawWeight_64 := RawWeight_64 r;
     InTimeRaw := InTimeRaw r;
     InTimeWet := InTimeWet r; OutTimeWet := OutTimeWet r;
     WetWeight_64 := WetWeight_64 r;
     InTimeDry := Some i; OutTimeDry := Some o; DryWeight_64 := Some (stored w);
     InTimePowder := InTimePowder r; OutTimePowder := OutTimePowder r;
     PowderWeight_64 := PowderWeight_64 r; Status := Status r;
     Centra_ID_64 := Centra_ID_64 r;
     Package_ID_64 := Package_ID_64 r; WeightRescale_64 := WeightRescale_64 r |}.

(** [SET InTimePowder = ?, OutTimePowder = ?, PowderWeight = ?] *)
Definition set_powder (i o : datetime) (w : Z) (r : row) : row :=
  {| Batch_ID_64 := Batch_ID_64 r; RawWeight_64 := RawWeight_64 r;
     InTimeRaw := InTimeRaw r;
     InTimeWet := InTimeWet r; OutTimeWet := OutTimeWet r;
     WetWeight_64 := WetWeight_64 r;
     InTimeDry := InTimeDry r; OutTimeDry := OutTimeDry r;
     DryWeight_64 := DryWeight_64 r;
     InTimePowder := Some i; OutTimePowder := Some o;
     PowderWeight_64 := Some (stored w);
     Status := Status r; Centra_ID_64 := Centra_ID_64 r;
     Package_ID_64 := Package_ID_64 r; WeightRescale_64 := WeightRescale_64 r |}.

(** [SET Status = ?] *)
Definition set_Status (s : string) (r : row) : row :=
  {| Batch_ID_64 := Batch_ID_64 r; RawWeight_64 := RawWeight_64 r;
     InTimeRaw := InTimeRaw r;
     InTimeWet := InTimeWet r; OutTimeWet := OutTimeWet r;
     WetWeight_64 := WetWeight_64 r;
     InTimeDry := InTimeDry r; OutTimeDry := OutTimeDry r;
     DryWeight_64 := DryWeight_64 r;
     InTimePowder := InTimePowder r; OutTimePowder := OutTimePowder r;
     PowderWeight_64 := PowderWeight_64 r; Status := s;
     Centra_ID_64 := Centra_ID_64 r;
     Package_ID_64 := Package_ID_64 r; WeightRescale_64 := WeightRescale_64 r |}.

(** [SET Package_ID = ?] *)
Definition set_Package_ID (p : Z) (r : row) : row :=
  {| Batch_ID_64 := Batch_ID_64 r; RawWeight_64 := RawWeight_64 r;
     InTimeRaw := InTimeRaw r;
     InTimeWet := InTimeWet r; OutTimeWet := OutTimeWet r;
     WetWeight_64 := WetWeight_64 r;
     InTimeDry := InTimeDry r; OutTimeDry := OutTimeDry r;
     DryWeight_64 := DryWeight_64 r;
     InTimePowder := InTimePowder r; OutTimePowder := OutTimePowder r;
     PowderWeight_64 := PowderWeight_64 r; Status := Status r;
     Centra_ID_64 := Centra_ID_64 r;
     Package_ID_64 := Some (stored p); WeightRescale_64 := WeightRescale_64 r |}.
End batch_id.

Module centra.
Record row : Type := {
  Centra_ID_64 : int64;
  CentraName : string;
  CentraAddress : string;
  NumberOfEmployees_64 : int64
}.

Definition Centra_ID (r : row) : Z := Centra_ID_64 r.
Definition NumberOfEmployees (r : row) : Z := NumberOfEmployees_64 r.

Definition columns : list string :=
  ["Centra_ID"; "CentraName"; "CentraAddress"; "NumberOfEmployees"].

(** A row from the values of its four columns. *)
Definition make (id : Z) (name address : string) (employees : Z) : row :=
  {| Centra_ID_64 := stored id; CentraName := name; CentraAddress := address;
     NumberOfEmployees_64 := stored employees |}.

Definition set_CentraName (v : string) (r : row) : row :=
  {| Centra_ID_64 := Centra_ID_64 r; CentraName := v;
     CentraAddress := CentraAddress r;
     NumberOfEmployees_64 := NumberOfEmployees_64 r |}.

Definition set_CentraAddress (v : string) (r : row) : row :=
  {| Centra_ID_64 := Centra_ID_64 r; CentraName := CentraName r;
     CentraAddress := v; NumberOfEmployees_64 := NumberOfEmployees_64 r |}.

Definition set_NumberOfEmployees (v : Z) (r : row) : row :=
  {| Centra_ID_64 := Centra_ID_64 r; CentraName := CentraName r;
     CentraAddress := CentraAddress r; NumberOfEmployees_64 := stored v |}.
End centra.

Module delivery.
Record row : Type := {
  Package_ID_64 : int64;
  Status : string;
  InDeliveryTime : datetime;
  OutDeliveryTime : option datetime;
  ExpeditionType : string
}.

Definition Package_ID (r : row) : Z := Package_ID_64 r.

Definition columns : list string :=
  ["Package_ID"; "Status"; "InDeliveryTime"; "OutDeliveryTime";
   "ExpeditionType"].

(** A row from the values of its five columns. *)
Definition make (id : Z) (status : string) (in_time : datetime)
    (out_time : option datetime) (expedition : string) : row :=
  {| Package_ID_64 := stored id; Status := status; InDeliveryTime := in_time;
     OutDeliveryTime := out_time; ExpeditionType := expedition |}.

(** [SET Status = ?] *)
Definition set_Status (s : string) (r : row) : row :=
  {| Package_ID_64 := Package_ID_64 r; Status := s;
     InDeliveryTime := InDeliveryTime r;
     OutDeliveryTime := OutDeliveryTime r; ExpeditionType := ExpeditionType r |}.

(** [SET OutDeliveryTime = ?] *)
Definition set_OutDeliveryTime (t : datetime) (r : row) : row :=
  {| Package_ID_64 := Package_ID_64 r; Status := Status r;
     InDeliveryTime := InDeliveryTime r;
     OutDeliveryTime := Some t; ExpeditionType := ExpeditionType r |}.
End delivery.
(** A table: its rows in scan order and the largest key ever handed out
    (the AUTOINCREMENT counter). *)
Record table (R : Type) : Type := {
  rows : list R;
  seq : Z
}.

Record database : Type := {
  db_batch_id : table batch_id.row;
  db_centra : table centra.row;
  db_delivery : table delivery.row
}.

(** How a statement reaches one table of the database. *)
Record relation (R : Type) : Type := {
  rel_columns : list string;
  rel_key : R -> Z;
  rel_get : database -> table R;
  rel_put : table R -> database -> database
}.

Definition BATCH_ID : relation batch_id.row := {|
  rel_columns := batch_id.columns;
  rel_key := batch_id.Batch_ID;
  rel_get := db_batch_id;
  rel_put := fun t d =>
    {| db_batch_id := t; db_centra := db_centra d; db_delivery := db_delivery d |}
|}.

Definition CENTRA : relation centra.row := {|
  rel_columns := centra.columns;
  rel_key := centra.Centra_ID;
  rel_get := db_centra;
  rel_put := fun t d =>
    {| db_batch_id := db_batch_id d; db_centra := t; db_delivery := db_delivery d |}
|}.

Definition DELIVERY : relation delivery.row := {|
  rel_columns := delivery.columns;
  rel_key := delivery.Package_ID;
  rel_get := db_delivery;
  rel_put := fun t d =>
    {| db_batch_id := db_batch_id d; db_centra := db_centra d; db_delivery := t |}
|}.

(** ** The connection *)

Record connection : Type := {
  disk : database;   (* what has been committed *)
  txn : database     (* what this connection sees, pending changes included *)
}.

Definition M (A : Type) : Type := connection -> result A * connection.

Definition ret {A : Type} (a : A) : M A := fun c => (Ok a, c).

Definition raise {A : Type} (e : exn) : M A := fun c => (Raise e, c).

Definition bind {A B : Type} (m : M A) (k : A -> M B) : M B :=
  fun c =>
    match m c with
    | (Ok a, c') => k a c'
    | (Raise e, c') => (Raise e, c')
    end.

Notation "x <- m ;; k" := (bind m (fun x => k))
  (at level 61, m at next level, right associativity).
Notation "m ;;; k" := (bind m (fun _ => k))
  (at level 61, right associativity).

Definition lift {A : Type} (r : result A) : M A := fun c => (r, c).

Definition get_db_connection (d : database) : connection :=
  {| disk := d; txn := d |}.

Definition conn_commit : M unit :=
  fun c => (Ok tt, {| disk := txn c; txn := txn c |}).

Definition conn_close : M unit :=
  fun c => (Ok tt, {| disk := disk c; txn := disk c |}).

(** One request: open a connection on the store, run the handler, keep what
    was committed. *)
Definition serve {A : Type} (h : M A) (d : database) : result A * database :=
  let (r, c) := h (get_db_connection d) in (r, disk c).

(** ** Statements *)


(** ** Statements *)

Definition known (cols : list string) (c : string) : bool :=
  existsb (String.eqb c) cols.

(** Preparing a statement fails when it names a column its table lacks. *)
Definition prepare (cols named : list string) : result unit :=
  match find (fun c => negb (known cols c)) named with
  | Some c => Raise (OperationalError ("no such column: " ++ c))
  | None => Ok tt
  end.

(** [conn.execute(sql, params)] up to the point where the statement runs:
    the statement is prepared, then the integer parameters are bound. *)
Definition execute (cols named : list string) (params : list Z) : result unit :=
  rbind (prepare cols named) (fun _ => bind_ints params).

Definition max_key {R : Type} (key : R -> Z) (l : list R) : Z :=
  fold_right (fun r m => Z.max (key r) m) 0 l.

(** The key AUTOINCREMENT hands out: one more than every key the table holds
    or has ever held. *)
Definition next_key {R : Type} (key : R -> Z) (t : table R) : Z :=
  Z.max (seq t) (max_key key (rows t)) + 1.

Fixpoint update_rows {R : Type} (cond : R -> bool) (set : R -> result R)
    (l : list R) : result (list R) :=
  match l with
  | [] => Ok []
  | r :: l' =>
      rbind (if cond r then set r else Ok r) (fun r' =>
      rbind (update_rows cond set l') (fun l'' => Ok (r' :: l'')))
  end.

Definition SELECT {R : Type} (rel : relation R) (named : list string)
    (params : list Z) (cond : R -> bool) : M (list R) :=
  fun c =>
    match execute (rel_columns rel) named params with
    | Raise e => (Raise e, c)
    | Ok _ => (Ok (filter cond (rows (rel_get rel (txn c)))), c)
    end.

(** An INSERT that leaves the key to AUTOINCREMENT; when the largest key
    has been used the engine refuses the row. *)
Definition INSERT {R : Type} (rel : relation R) (named : list string)
    (params : list Z) (values : Z -> R) : M Z :=
  fun c =>
    match execute (rel_columns rel) named params with
    | Raise e => (Raise e, c)
    | Ok _ =>
        let t := rel_get rel (txn c) in
        let lastrowid := next_key (rel_key rel) t in
        if in_int64 lastrowid then
          let t' := {| rows := rows t ++ [values lastrowid]; seq := lastrowid |} in
          (Ok lastrowid, {| disk := disk c; txn := rel_put rel t' (txn c) |})
        else (Raise (OperationalError "database or disk is full"), c)
    end.

Definition UPDATE {R : Type} (rel : relation R) (named : list string)
    (params : list Z) (set : R -> result R) (cond : R -> bool) : M unit :=
  fun c =>
    match execute (rel_columns rel) named params with
    | Raise e => (Raise e, c)
    | Ok _ =>
        let t := rel_get rel (txn c) in
        match update_rows cond set (rows t) with
        | Raise e => (Raise e, c)
        | Ok l =>
            (Ok tt, {| disk := disk c;
                       txn := rel_put rel {| rows := l; seq := seq t |} (txn c) |})
        end
    end.

Definition DELETE {R : Type} (rel : relation R) (named : list string)
    (params : list Z) (cond : R -> bool) : M unit :=
  fun c =>
    match execute (rel_columns rel) named params with
    | Raise e => (Raise e, c)
    | Ok _ =>
        let t := rel_get rel (txn c) in
        let l := filter (fun r => negb (cond r)) (rows t) in
        (Ok tt, {| disk := disk c;
                   txn := rel_put rel {| rows := l; seq := seq t |} (txn c) |})
    end.

Definition fetchone {R : Type} (m : M (list R)) : M (option R) :=
  l <- m ;; ret (hd_error l).

Definition fetchall {R : Type} (m : M (list R)) : M (list R) := m.

(** [column = ?] with a bound parameter that may be NULL: NULL equals
    nothing. *)
Definition eq_param (column : Z) (param : option Z) : bool :=
  match param with
  | Some p => column =? p
  | None => false
  end.

(** The integers among the parameters when one of them may be [None]. *)
Definition int_param (v : option Z) : list Z :=
  match v with
  | Some z => [z]
  | None => []
  end.
(** A NOT NULL column assigned NULL. *)
Definition not_null {A : Type} (column : string) (v : option A) : result A :=
  match v with
  | Some a => Ok a
  | None => Raise (IntegrityError ("NOT NULL constraint failed: " ++ column))
  end.

(** [ORDER BY key DESC]: rows with the larger text first. *)
Fixpoint insert_desc {R : Type} (key : R -> string) (x : R) (l : list R) : list R :=
  match l with
  | [] => [x]
  | y :: l' =>
      if (key y <=? key x)%string then x :: y :: l' else y :: insert_desc key x l'
  end.

Definition ORDER_BY_DESC {R : Type} (key : R -> string) (l : list R) : list R :=
  fold_right (insert_desc key) [] l.

Definition LIMIT {R : Type} (n : nat) (l : list R) : list R := firstn n l.

Fixpoint map_result {A B : Type} (f : A -> result B) (l : list A) : result (list B) :=
  match l with
  | [] => Ok []
  | a :: l' =>
      rbind (f a) (fun b => rbind (map_result f l') (fun bs => Ok (b :: bs)))
  end.

Fixpoint for_each {A : Type} (l : list A) (body : A -> M unit) : M unit :=
  match l with
  | [] => ret tt
  | a :: l' => body a ;;; for_each l' body
  end.

(** ** Pydantic models *)


Module Batch.
Record t : Type := {
  Batch_ID : Z;
  RawWeight : Z;
  InTimeRaw : datetime;
  InTimeWet : option datetime;
  OutTimeWet : option datetime;
  WetWeight : option Z;
  InTimeDry : option datetime;
  OutTimeDry : option datetime;
  DryWeight : option Z;
  InTimePowder : option datetime;
  OutTimePowder : option datetime;
  PowderWeight : option Z;
  Status : string;
  Centra_ID : Z;
  Package_ID : option Z;
  WeightRescale : option Z
}.

(** [Batch(...)]: the four fields without a default must be passed and not
    be [None]; the others default to [None]. *)
Definition init (Batch_ID_ RawWeight_ : given Z) (InTimeRaw_ : given datetime)
    (InTimeWet_ OutTimeWet_ : given datetime) (WetWeight_ : given Z)
    (InTimeDry_ OutTimeDry_ : given datetime) (DryWeight_ : given Z)
    (InTimePowder_ OutTimePowder_ : given datetime) (PowderWeight_ : given Z)
    (Status_ : given string) (Centra_ID_ : given Z)
    (Package_ID_ WeightRescale_ : given Z) : result t :=
  rbind (required "Batch" "Batch_ID" Batch_ID_) (fun id =>
  rbind (required "Batch" "RawWeight" RawWeight_) (fun rw =>
  rbind (required "Batch" "InTimeRaw" InTimeRaw_) (fun itr =>
  rbind (required "Batch" "Status" Status_) (fun st =>
  rbind (required "Batch" "Centra_ID" Centra_ID_) (fun cid =>
  Ok {| Batch_ID := id; RawWeight := rw; InTimeRaw := itr;
        InTimeWet := optional InTimeWet_; OutTimeWet := optional OutTimeWet_;
        WetWeight := optional WetWeight_;
        InTimeDry := optional InTimeDry_; OutTimeDry := optional OutTimeDry_;
        DryWeight := optional DryWeight_;
        InTimePowder := optional InTimePowder_;
        OutTimePowder := optional OutTimePowder_;
        PowderWeight := optional PowderWeight_;
        Status := st; Centra_ID := cid;
        Package_ID := optional Package_ID_;
        WeightRescale := optional WeightRescale_ |}))))).
End Batch.

Module RawWeight.
Record t : Type := { RawWeight : Z; InTimeRaw : datetime }.
End RawWeight.

Module WetWeight.
Record t : Type := { WetWeight : Z; InTimeWet : datetime; OutTimeWet : datetime }.

Definition init (WetWeight_ : option Z) (InTimeWet_ OutTimeWet_ : option datetime)
    : result t :=
  rbind (required "WetWeight" "WetWeight" (Given WetWeight_)) (fun w =>
  rbind (required "WetWeight" "InTimeWet" (Given InTimeWet_)) (fun i =>
  rbind (required "WetWeight" "OutTimeWet" (Given OutTimeWet_)) (fun o =>
  Ok {| WetWeight := w; InTimeWet := i; OutTimeWet := o |}))).
End WetWeight.

Module DryWeight.
Record t : Type := { DryWeight : Z; InTimeDry : datetime; OutTimeDry : datetime }.

Definition init (DryWeight_ : option Z) (InTimeDry_ OutTimeDry_ : option datetime)
    : result t :=
  rbind (required "DryWeight" "DryWeight" (Given DryWeight_)) (fun w =>
  rbind (required "DryWeight" "InTimeDry" (Given InTimeDry_)) (fun i =>
  rbind (required "DryWeight" "OutTimeDry" (Given OutTimeDry_)) (fun o =>
  Ok {| DryWeight := w; InTimeDry := i; OutTimeDry := o |}))).
End DryWeight.

Module PowderWeight.
Record t : Type := {
  PowderWeight : Z; InTimePowder : datetime; OutTimePowder : datetime
}.

Definition init (PowderWeight_ : option Z)
    (InTimePowder_ OutTimePowder_ : option datetime) : result t :=
  rbind (required "PowderWeight" "PowderWeight" (Given PowderWeight_)) (fun w =>
  rbind (required "PowderWeight" "InTimePowder" (Given InTimePowder_)) (fun i =>
  rbind (required "PowderWeight" "OutTimePowder" (Given OutTimePowder_)) (fun o =>
  Ok {| PowderWeight := w; InTimePowder := i; OutTimePowder := o |}))).
End PowderWeight.

Module DeliveryInfo.
Record t : Type := {
  Package_ID : Z; Status : string; InDeliveryTime : datetime;
  ExpeditionType : string
}.
End DeliveryInfo.

Module UpdateStatus.
Record t : Type := { Status : string }.
End UpdateStatus.

Module OutDelivery.
Record t : Type := { OutDeliveryTime : datetime; WeightRescale : Z }.
End OutDelivery.

Module BatchUpdateStatus.
Record t : Type := { Batch_IDs : list Z; Status : string }.
End BatchUpdateStatus.

Module AddWetWeight.
Record t : Type := { InTimeWet : datetime; OutTimeWet : datetime; WetWeight : Z }.
End AddWetWeight.

Module AddDryWeight.
Record t : Type := { InTimeDry : datetime; OutTimeDry : datetime; DryWeight : Z }.
End AddDryWeight.

Module AddPowderWeight.
Record t : Type := {
  InTimePowder : datetime; OutTimePowder : datetime; PowderWeight : Z
}.
End AddPowderWeight.

Module WeightInfo.
Record t : Type := { Batch_ID : Z; RawWeight : Z; InTimeRaw : datetime }.
End WeightInfo.

Module NewBatch.
Record t : Type := {
  RawWeight : Z; Status : string; Centra_ID : Z; InTimeRaw : datetime
}.
End NewBatch.

Module NewPackage.
Record t : Type := {
  InDeliveryTime : datetime; ExpeditionType : string; Status : string
}.
End NewPackage.

Module UpdatePackageID.
Record t : Type := { Package_ID : Z }.
End UpdatePackageID.

Module Centra.
Record t : Type := {
  Centra_ID : Z; CentraName : string; CentraAddress : string;
  NumberOfEmployees : Z
}.
End Centra.

Module NewCentra.
Record t : Type := {
  CentraName : string; CentraAddress : string; NumberOfEmployees : Z
}.
End NewCentra.

Module UpdateCentra.
(** Every field is [Optional[...] = None]: a body may leave a field out,
    send it as null, or send a value. *)
Record t : Type := {
  CentraName : given string;
  CentraAddress : given string;
  NumberOfEmployees : given Z
}.

(** One entry of [centra.dict(exclude_unset=True)]. *)
Inductive item : Type :=
| item_CentraName (value : option string)
| item_CentraAddress (value : option string)
| item_NumberOfEmployees (value : option Z).

Definition key (i : item) : string :=
  match i with
  | item_CentraName _ => "CentraName"
  | item_CentraAddress _ => "CentraAddress"
  | item_NumberOfEmployees _ => "NumberOfEmployees"
  end.

Definition entry {A : Type} (mk : option A -> item) (g : given A) : list item :=
  match g with
  | Unset => []
  | Given v => [mk v]
  end.

(** [dict(exclude_unset=True)]: the fields the body set, in field order. *)
Definition dict_exclude_unset (c : t) : list item :=
  entry item_CentraName (CentraName c)
  ++ entry item_CentraAddress (CentraAddress c)
  ++ entry item_NumberOfEmployees (NumberOfEmployees c).

(** The integer an entry binds, if its value is one. *)
Definition int_value (i : item) : list Z :=
  match i with
  | item_NumberOfEmployees (Some n) => [n]
  | _ => []
  end.

(** [SET {key} = ?] on a row of centra, whose columns are all NOT NULL. *)
Definition assign (i : item) (r : centra.row) : result centra.row :=
  match i with
  | item_CentraName v =>
      rbind (not_null "centra.CentraName" v)
            (fun s => Ok (centra.set_CentraName s r))
  | item_CentraAddress v =>
      rbind (not_null "centra.CentraAddress" v)
            (fun s => Ok (centra.set_CentraAddress s r))
  | item_NumberOfEmployees v =>
      rbind (not_null "centra.NumberOfEmployees" v)
            (fun n => Ok (centra.set_NumberOfEmployees n r))
  end.
End UpdateCentra.

(** ** The route handlers *)

(** The sixteen keywords both [get_all_batches] and [delete_batch] pass to
    [Batch] from a fetched row. *)
Definition Batch_of_row (batch : batch_id.row) : result Batch.t :=
  Batch.init
    (Given (Some (batch_id.Batch_ID batch)))
    (Given (Some (batch_id.RawWeight batch)))
    (Given (Some (batch_id.InTimeRaw batch)))
    (Given (batch_id.InTimeWet batch))
    (Given (batch_id.OutTimeWet batch))
    (Given (batch_id.WetWeight batch))
    (Given (batch_id.InTimeDry batch))
    (Given (batch_id.OutTimeDry batch))
    (Given (batch_id.DryWeight batch))
    (Given (batch_id.InTimePowder batch))
    (Given (batch_id.OutTimePowder batch))
    (Given (batch_id.PowderWeight batch))
    (Given (Some (batch_id.Status batch)))
    (Given (Some (batch_id.Centra_ID batch)))
    (Given (batch_id.Package_ID batch))
    (Given (batch_id.WeightRescale batch)).

(** [Batch(Batch_ID=...)]: only the key is passed. *)
Definition Batch_of_id (id : Z) : result Batch.t :=
  Batch.init (Given (Some id)) Unset Unset Unset Unset Unset Unset Unset Unset
             Unset Unset Unset Unset Unset Unset Unset.

Definition DeliveryInfo_of_row (package : delivery.row) : DeliveryInfo.t :=
  {| DeliveryInfo.Package_ID := delivery.Package_ID package;
     DeliveryInfo.Status := delivery.Status package;
     DeliveryInfo.InDeliveryTime := delivery.InDeliveryTime package;
     DeliveryInfo.ExpeditionType := delivery.ExpeditionType package |}.

Definition Centra_of_row (c : centra.row) : Centra.t :=
  {| Centra.Centra_ID := centra.Centra_ID c;
     Centra.CentraName := centra.CentraName c;
     Centra.CentraAddress := centra.CentraAddress c;
     Centra.NumberOfEmployees := centra.NumberOfEmployees c |}.

Definition has_Batch_ID (id : Z) (b : batch_id.row) : bool :=
  batch_id.Batch_ID b =? id.

Definition has_Centra_ID (id : Z) (c : centra.row) : bool :=
  centra.Centra_ID c =? id.

Definition has_Package_ID (id : Z) (d : delivery.row) : bool :=
  delivery.Package_ID d =? id.

(** GET /batches *)
Definition get_all_batches : M (list Batch.t) :=
  batches <- fetchall (SELECT BATCH_ID [] [] (fun _ => true)) ;;
  conn_close ;;;
  lift (map_result Batch_of_row batches).

(** GET /batch/{batch_id}/raw *)
Definition get_raw_weight (batch_id : Z) : M RawWeight.t :=
  raw <- fetchone (SELECT BATCH_ID ["RawWeight"; "InTimeRaw"; "Batch_ID"]
                          [batch_id] (has_Batch_ID batch_id)) ;;
  conn_close ;;;
  match raw with
  | None => raise (HTTPException 404 "Batch not found")
  | Some raw =>
      ret {| RawWeight.RawWeight := batch_id.RawWeight raw;
             RawWeight.InTimeRaw := batch_id.InTimeRaw raw |}
  end.

(** GET /batch/{batch_id}/wet *)
Definition get_wet_weight (batch_id : Z) : M WetWeight.t :=
  wet <- fetchone (SELECT BATCH_ID ["WetWeight"; "InTimeWet"; "OutTimeWet"; "Batch_ID"]
                          [batch_id] (has_Batch_ID batch_id)) ;;
  conn_close ;;;
  match wet with
  | None => raise (HTTPException 404 "Batch not found")
  | Some wet =>
      lift (WetWeight.init (batch_id.WetWeight wet) (batch_id.InTimeWet wet)
                           (batch_id.OutTimeWet wet))
  end.

(** GET /batch/{batch_id}/dry *)
Definition get_dry_weight (batch_id : Z) : M DryWeight.t :=
  dry <- fetchone (SELECT BATCH_ID ["DryWeight"; "InTimeDry"; "OutTimeDry"; "Batch_ID"]
                          [batch_id] (has_Batch_ID batch_id)) ;;
  conn_close ;;;
  match dry with
  | None => raise (HTTPException 404 "Batch not found")
  | Some dry =>
      lift (DryWeight.init (batch_id.DryWeight dry) (batch_id.InTimeDry dry)
                           (batch_id.OutTimeDry dry))
  end.

(** GET /batch/{batch_id}/powder *)
Definition get_powder_weight (batch_id : Z) : M PowderWeight.t :=
  powder <- fetchone (SELECT BATCH_ID
                        ["PowderWeight"; "InTimePowder"; "OutTimePowder"; "Batch_ID"]
                        [batch_id] (has_Batch_ID batch_id)) ;;
  conn_close ;;;
  match powder with
  | None => raise (HTTPException 404 "Batch not found")
  | Some powder =>
      lift (PowderWeight.init (batch_id.PowderWeight powder)
                              (batch_id.InTimePowder powder)
                              (batch_id.OutTimePowder powder))
  end.

(** [FROM delivery d JOIN batch_id b ON b.Package_ID = d.Package_ID
     WHERE b.Batch_ID = ?]: the delivery rows joined to the batches of that
    key. *)
Definition SELECT_delivery_JOIN_batch_id (batch_id : Z) : M (list delivery.row) :=
  fun c =>
    match prepare delivery.columns
                  ["Package_ID"; "Status"; "InDeliveryTime"; "ExpeditionType"],
          execute batch_id.columns ["Package_ID"; "Batch_ID"] [batch_id] with
    | Ok _, Ok _ =>
        (Ok (flat_map
               (fun b =>
                  filter (fun d => eq_param (delivery.Package_ID d)
                                            (batch_id.Package_ID b))
                         (rows (db_delivery (txn c))))
               (filter (has_Batch_ID batch_id) (rows (db_batch_id (txn c))))),
         c)
    | Raise e, _ => (Raise e, c)
    | _, Raise e => (Raise e, c)
    end.

(** GET /batch/{batch_id}/delivery *)
Definition get_delivery_info (batch_id : Z) : M DeliveryInfo.t :=
  delivery <- fetchone (SELECT_delivery_JOIN_batch_id batch_id) ;;
  conn_close ;;;
  match delivery with
  | None => raise (HTTPException 404 "Batch not found")
  | Some delivery => ret (DeliveryInfo_of_row delivery)
  end.

(** GET /packages *)
Definition get_all_packages : M (list DeliveryInfo.t) :=
  packages <- fetchall (SELECT DELIVERY
                          ["Package_ID"; "Status"; "InDeliveryTime"; "ExpeditionType"]
                          [] (fun _ => true)) ;;
  conn_close ;;;
  ret (map DeliveryInfo_of_row packages).

(** PUT /package/{package_id}/status *)
Definition update_package_status (package_id : Z) (status : UpdateStatus.t)
    : M UpdateStatus.t :=
  UPDATE DELIVERY ["Status"; "Package_ID"] [package_id]
         (fun d => Ok (delivery.set_Status (UpdateStatus.Status status) d))
         (has_Package_ID package_id) ;;;
  conn_commit ;;;
  conn_close ;;;
  ret status.

(** PUT /batch/{batch_id}/status *)
Definition update_delivery_status (batch_id : Z) (status : UpdateStatus.t)
    : M UpdateStatus.t :=
  package_id <- fetchone (SELECT BATCH_ID ["Package_ID"; "Batch_ID"]
                                 [batch_id] (has_Batch_ID batch_id)) ;;
  match package_id with
  | None =>
      conn_close ;;;
      raise (HTTPException 404 "Batch not found")
  | Some package_id =>
      let package_id := batch_id.Package_ID package_id in
      UPDATE DELIVERY ["Status"; "Package_ID"] (int_param package_id)
             (fun d => Ok (delivery.set_Status (UpdateStatus.Status status) d))
             (fun d => eq_param (delivery.Package_ID d) package_id) ;;;
      conn_commit ;;;
      conn_close ;;;
      ret status
  end.

(** [(SELECT Package_ID FROM batch_id WHERE Batch_ID = ?)] as a scalar:
    the first row's value, NULL when there is no row. *)
Definition Package_ID_of_batch (batch_id : Z) (d : database) : option Z :=
  match hd_error (filter (has_Batch_ID batch_id) (rows (db_batch_id d))) with
  | Some b => batch_id.Package_ID b
  | None => None
  end.

(** PUT /batch/{batch_id}/outdelivery.  The statement assigns WeightRescale
    in table delivery, which has no such column. *)
Definition update_outdelivery (batch_id : Z) (outdelivery : OutDelivery.t)
    : M OutDelivery.t :=
  (fun c =>
     UPDATE DELIVERY ["OutDeliveryTime"; "WeightRescale"; "Package_ID"]
            [OutDelivery.WeightRescale outdelivery; batch_id]
            (fun d => Ok (delivery.set_OutDeliveryTime
                            (OutDelivery.OutDeliveryTime outdelivery) d))
            (fun d => eq_param (delivery.Package_ID d)
                               (Package_ID_of_batch batch_id (txn c)))
            c) ;;;
  conn_commit ;;;
  conn_close ;;;
  ret outdelivery.

(** PUT /batches/status *)
Definition update_batches_status (batch_update : BatchUpdateStatus.t)
    : M BatchUpdateStatus.t :=
  for_each (BatchUpdateStatus.Batch_IDs batch_update) (fun batch_id =>
    UPDATE BATCH_ID ["Status"; "Batch_ID"] [batch_id]
           (fun b => Ok (batch_id.set_Status (BatchUpdateStatus.Status batch_update) b))
           (has_Batch_ID batch_id)) ;;;
  conn_commit ;;;
  conn_close ;;;
  ret batch_update.

Definition WeightInfo_of_row (weight : batch_id.row) : WeightInfo.t :=
  {| WeightInfo.Batch_ID := batch_id.Batch_ID weight;
     WeightInfo.RawWeight := batch_id.RawWeight weight;
     WeightInfo.InTimeRaw := batch_id.InTimeRaw weight |}.

(** GET /centra/{centra_id}/batches/weights *)
Definition get_last_seven_batches_weights (centra_id : Z) : M (list WeightInfo.t) :=
  weights <- fetchall
    (l <- SELECT BATCH_ID ["Batch_ID"; "RawWeight"; "InTimeRaw"; "Centra_ID"]
                 [centra_id] (fun b => batch_id.Centra_ID b =? centra_id) ;;
     ret (LIMIT 7 (ORDER_BY_DESC batch_id.InTimeRaw l))) ;;
  conn_close ;;;
  ret (map WeightInfo_of_row weights).

(** GET /centra/{centra_id}/batches *)
Definition get_all_batches_from_centra (centra_id : Z) : M (list Batch.t) :=
  batches <- fetchall (SELECT BATCH_ID ["Batch_ID"; "Centra_ID"]
                              [centra_id] (fun b => batch_id.Centra_ID b =? centra_id)) ;;
  conn_close ;;;
  lift (map_result (fun batch => Batch_of_id (batch_id.Batch_ID batch)) batches).

(** PUT /batch/{batch_id}/wet *)
Definition add_wet_weight (batch_id : Z) (wet : AddWetWeight.t) : M WetWeight.t :=
  UPDATE BATCH_ID ["InTimeWet"; "OutTimeWet"; "WetWeight"; "Batch_ID"]
         [AddWetWeight.WetWeight wet; batch_id]
         (fun b => Ok (batch_id.set_wet (AddWetWeight.InTimeWet wet)
                                        (AddWetWeight.OutTimeWet wet)
                                        (AddWetWeight.WetWeight wet) b))
         (has_Batch_ID batch_id) ;;;
  conn_commit ;;;
  conn_close ;;;
  lift (WetWeight.init (Some (AddWetWeight.WetWeight wet))
                       (Some (AddWetWeight.InTimeWet wet))
                       (Some (AddWetWeight.OutTimeWet wet))).

(** PUT /batch/{batch_id}/dry *)
Definition add_dry_weight (batch_id : Z) (dry : AddDryWeight.t) : M DryWeight.t :=
  UPDATE BATCH_ID ["InTimeDry"; "OutTimeDry"; "DryWeight"; "Batch_ID"]
         [AddDryWeight.DryWeight dry; batch_id]
         (fun b => Ok (batch_id.set_dry (AddDryWeight.InTimeDry dry)
                                        (AddDryWeight.OutTimeDry dry)
                                        (AddDryWeight.DryWeight dry) b))
         (has_Batch_ID batch_id) ;;;
  conn_commit ;;;
  conn_close ;;;
  lift (DryWeight.init (Some (AddDryWeight.DryWeight dry))
                       (Some (AddDryWeight.InTimeDry dry))
                       (Some (AddDryWeight.OutTimeDry dry))).

(** PUT /batch/{batch_id}/powder *)
Definition add_powder_weight (batch_id : Z) (powder : AddPowderWeight.t)
    : M PowderWeight.t :=
  UPDATE BATCH_ID ["InTimePowder"; "OutTimePowder"; "PowderWeight"; "Batch_ID"]
         [AddPowderWeight.PowderWeight powder; batch_id]
         (fun b => Ok (batch_id.set_powder (AddPowderWeight.InTimePowder powder)
                                           (AddPowderWeight.OutTimePowder powder)
                                           (AddPowderWeight.PowderWeight powder) b))
         (has_Batch_ID batch_id) ;;;
  conn_commit ;;;
  conn_close ;;;
  lift (PowderWeight.init (Some (AddPowderWeight.PowderWeight powder))
                          (Some (AddPowderWeight.InTimePowder powder))
                          (Some (AddPowderWeight.OutTimePowder powder))).

(** The row [INSERT INTO batch_id (RawWeight, Status, Centra_ID, InTimeRaw)]
    stores: the columns not listed are NULL. *)
Definition new_batch_row (batch : NewBatch.t) (id : Z) : batch_id.row :=
  {| batch_id.Batch_ID_64 := stored id;
     batch_id.RawWeight_64 := stored (NewBatch.RawWeight batch);
     batch_id.InTimeRaw := NewBatch.InTimeRaw batch;
     batch_id.InTimeWet := None; batch_id.OutTimeWet := None;
     batch_id.WetWeight_64 := None;
     batch_id.InTimeDry := None; batch_id.OutTimeDry := None;
     batch_id.DryWeight_64 := None;
     batch_id.InTimePowder := None; batch_id.OutTimePowder := None;
     batch_id.PowderWeight_64 := None;
     batch_id.Status := NewBatch.Status batch;
     batch_id.Centra_ID_64 := stored (NewBatch.Centra_ID batch);
     batch_id.Package_ID_64 := None; batch_id.WeightRescale_64 := None |}.

(** POST /batch *)
Definition add_batch (batch : NewBatch.t) : M Batch.t :=
  batch_id <- INSERT BATCH_ID ["RawWeight"; "Status"; "Centra_ID"; "InTimeRaw"]
                     [NewBatch.RawWeight batch; NewBatch.Centra_ID batch]
                     (new_batch_row batch) ;;
  conn_commit ;;;
  conn_close ;;;
  lift (Batch_of_id batch_id).

Definition new_package_row (package : NewPackage.t) (id : Z) : delivery.row :=
  delivery.make id (NewPackage.Status package) (NewPackage.InDeliveryTime package)
                None (NewPackage.ExpeditionType package).

(** POST /package *)
Definition add_package (package : NewPackage.t) : M DeliveryInfo.t :=
  package_id <- INSERT DELIVERY ["InDeliveryTime"; "ExpeditionType"; "Status"]
                       [] (new_package_row package) ;;
  conn_commit ;;;
  conn_close ;;;
  ret {| DeliveryInfo.Package_ID := package_id;
         DeliveryInfo.Status := NewPackage.Status package;
         DeliveryInfo.InDeliveryTime := NewPackage.InDeliveryTime package;
         DeliveryInfo.ExpeditionType := NewPackage.ExpeditionType package |}.

(** PUT /batch/{batch_id}/package *)
Definition update_package_id (batch_id : Z) (package : UpdatePackageID.t)
    : M Batch.t :=
  UPDATE BATCH_ID ["Package_ID"; "Batch_ID"]
         [UpdatePackageID.Package_ID package; batch_id]
         (fun b => Ok (batch_id.set_Package_ID (UpdatePackageID.Package_ID package) b))
         (has_Batch_ID batch_id) ;;;
  conn_commit ;;;
  conn_close ;;;
  lift (Batch_of_id batch_id).

(** GET /centra *)
Definition get_all_centra : M (list Centra.t) :=
  centra <- fetchall (SELECT CENTRA
                        ["Centra_ID"; "CentraName"; "CentraAddress"; "NumberOfEmployees"]
                        [] (fun _ => true)) ;;
  conn_close ;;;
  ret (map Centra_of_row centra).

(** PUT /centra/{centra_id} *)
Definition update_centra (centra_id : Z) (centra : UpdateCentra.t) : M Centra.t :=
  existing_centra <- fetchone (SELECT CENTRA ["Centra_ID"] [centra_id] (has_Centra_ID centra_id)) ;;
  match existing_centra with
  | None =>
      conn_close ;;;
      raise (HTTPException 404 "Centra not found")
  | Some _ =>
      let update_data := UpdateCentra.dict_exclude_unset centra in
      for_each update_data (fun kv =>
        UPDATE CENTRA [UpdateCentra.key kv; "Centra_ID"]
               (UpdateCentra.int_value kv ++ [centra_id])
               (UpdateCentra.assign kv) (has_Centra_ID centra_id)) ;;;
      conn_commit ;;;
      updated_centra <- fetchone (SELECT CENTRA ["Centra_ID"] [centra_id] (has_Centra_ID centra_id)) ;;
      conn_close ;;;
      match updated_centra with
      | None => raise (TypeError "'NoneType' object is not subscriptable")
      | Some updated_centra => ret (Centra_of_row updated_centra)
      end
  end.

(** DELETE /centra/{centra_id} *)
Definition delete_centra (centra_id : Z) : M Centra.t :=
  centra <- fetchone (SELECT CENTRA ["Centra_ID"] [centra_id] (has_Centra_ID centra_id)) ;;
  match centra with
  | None =>
      conn_close ;;;
      raise (HTTPException 404 "Centra not found")
  | Some centra =>
      DELETE CENTRA ["Centra_ID"] [centra_id] (has_Centra_ID centra_id) ;;;
      conn_commit ;;;
      conn_close ;;;
      ret (Centra_of_row centra)
  end.

(** DELETE /package/{package_id} *)
Definition delete_package (package_id : Z) : M DeliveryInfo.t :=
  package <- fetchone (SELECT DELIVERY ["Package_ID"] [package_id] (has_Package_ID package_id)) ;;
  match package with
  | None =>
      conn_close ;;;
      raise (HTTPException 404 "Package not found")
  | Some package =>
      DELETE DELIVERY ["Package_ID"] [package_id] (has_Package_ID package_id) ;;;
      conn_commit ;;;
      conn_close ;;;
      ret (DeliveryInfo_of_row package)
  end.

(** DELETE /batch/{batch_id} *)
Definition delete_batch (batch_id : Z) : M Batch.t :=
  batch <- fetchone (SELECT BATCH_ID ["Batch_ID"] [batch_id] (has_Batch_ID batch_id)) ;;
  match batch with
  | None =>
      conn_close ;;;
      raise (HTTPException 404 "Batch not found")
  | Some batch =>
      DELETE BATCH_ID ["Batch_ID"] [batch_id] (has_Batch_ID batch_id) ;;;
      conn_commit ;;;
      conn_close ;;;
      lift (Batch_of_row batch)
  end.

Definition new_centra_row (centra : NewCentra.t) (id : Z) : centra.row :=
  centra.make id (NewCentra.CentraName centra) (NewCentra.CentraAddress centra)
              (NewCentra.NumberOfEmployees centra).

(** POST /centra *)
Definition add_centra (centra : NewCentra.t) : M Centra.t :=
  centra_id <- INSERT CENTRA ["CentraName"; "CentraAddress"; "NumberOfEmployees"]
                      [NewCentra.NumberOfEmployees centra]
                      (new_centra_row centra) ;;
  conn_commit ;;;
  conn_close ;;;
  ret {| Centra.Centra_ID := centra_id;
         Centra.CentraName := NewCentra.CentraName centra;
         Centra.CentraAddress := NewCentra.CentraAddress centra;
         Centra.NumberOfEmployees := NewCentra.NumberOfEmployees centra |}.

(** ** Requests as data: one constructor per route *)


Inductive request : Type :=
| GET_batches
| GET_batch_raw (batch_id : Z)
| GET_batch_wet (batch_id : Z)
| GET_batch_dry (batch_id : Z)
| GET_batch_powder (batch_id : Z)
| GET_batch_delivery (batch_id : Z)
| GET_packages
| PUT_package_status (package_id : Z) (status : UpdateStatus.t)
| PUT_batch_status (batch_id : Z) (status : UpdateStatus.t)
| PUT_batch_outdelivery (batch_id : Z) (outdelivery : OutDelivery.t)
| PUT_batches_status (batch_update : BatchUpdateStatus.t)
| GET_centra_batches_weights (centra_id : Z)
| GET_centra_batches (centra_id : Z)
| PUT_batch_wet (batch_id : Z) (wet : AddWetWeight.t)
| PUT_batch_dry (batch_id : Z) (dry : AddDryWeight.t)
| PUT_batch_powder (batch_id : Z) (powder : AddPowderWeight.t)
| POST_batch (batch : NewBatch.t)
| POST_package (package : NewPackage.t)
| PUT_batch_package (batch_id : Z) (package : UpdatePackageID.t)
| GET_centra
| PUT_centra (centra_id : Z) (centra : UpdateCentra.t)
| DELETE_centra (centra_id : Z)
| DELETE_package (package_id : Z)
| DELETE_batch (batch_id : Z)
| POST_centra (centra : NewCentra.t).

(** The status line of the reply and the store the request leaves behind. *)
Definition answer {A : Type} (x : result A * database) : Z * database :=
  (status_code (fst x), snd x).

Definition app (req : request) (d : database) : Z * database :=
  match req with
  | GET_batches => answer (serve get_all_batches d)
  | GET_batch_raw i => answer (serve (get_raw_weight i) d)
  | GET_batch_wet i => answer (serve (get_wet_weight i) d)
  | GET_batch_dry i => answer (serve (get_dry_weight i) d)
  | GET_batch_powder i => answer (serve (get_powder_weight i) d)
  | GET_batch_delivery i => answer (serve (get_delivery_info i) d)
  | GET_packages => answer (serve get_all_packages d)
  | PUT_package_status i s => answer (serve (update_package_status i s) d)
  | PUT_batch_status i s => answer (serve (update_delivery_status i s) d)
  | PUT_batch_outdelivery i o => answer (serve (update_outdelivery i o) d)
  | PUT_batches_status u => answer (serve (update_batches_status u) d)
  | GET_centra_batches_weights i => answer (serve (get_last_seven_batches_weights i) d)
  | GET_centra_batches i => answer (serve (get_all_batches_from_centra i) d)
  | PUT_batch_wet i w => answer (serve (add_wet_weight i w) d)
  | PUT_batch_dry i w => answer (serve (add_dry_weight i w) d)
  | PUT_batch_powder i w => answer (serve (add_powder_weight i w) d)
  | POST_batch b => answer (serve (add_batch b) d)
  | POST_package p => answer (serve (add_package p) d)
  | PUT_batch_package i p => answer (serve (update_package_id i p) d)
  | GET_centra => answer (serve get_all_centra d)
  | PUT_centra i c => answer (serve (update_centra i c) d)
  | DELETE_centra i => answer (serve (delete_centra i) d)
  | DELETE_package i => answer (serve (delete_package i) d)
  | DELETE_batch i => answer (serve (delete_batch i) d)
  | POST_centra c => answer (serve (add_centra c) d)
  end.

(** ** Vocabulary of the statements *)

(** The rows an [UPDATE ... WHERE cond] leaves: [f] applied where [cond]
    holds. *)
Definition updated {R : Type} (cond : R -> bool) (f : R -> R) (l : list R) : list R :=
  map (fun r => if cond r then f r else r) l.

Arguments updated : simpl never.

Definition with_batch_rows (l : list batch_id.row) (d : database) : database :=
  {| db_batch_id := {| rows := l; seq := seq (db_batch_id d) |};
     db_centra := db_centra d;
     db_delivery := db_delivery d |}.

Definition with_centra_rows (l : list centra.row) (d : database) : database :=
  {| db_batch_id := db_batch_id d;
     db_centra := {| rows := l; seq := seq (db_centra d) |};
     db_delivery := db_delivery d |}.

Definition with_delivery_rows (l : list delivery.row) (d : database) : database :=
  {| db_batch_id := db_batch_id d;
     db_centra := db_centra d;
     db_delivery := {| rows := l; seq := seq (db_delivery d) |} |}.

(** [SELECT ... WHERE key = ?] followed by [fetchone()]. *)
Definition batch_with (id : Z) (d : database) : option batch_id.row :=
  hd_error (filter (has_Batch_ID id) (rows (db_batch_id d))).

Definition centra_with (id : Z) (d : database) : option centra.row :=
  hd_error (filter (has_Centra_ID id) (rows (db_centra d))).

Definition package_with (id : Z) (d : database) : option delivery.row :=
  hd_error (filter (has_Package_ID id) (rows (db_delivery d))).

Definition empty_table (R : Type) : table R := {| rows := []; seq := 0 |}.

(** The store right after [create_new_database]. *)
Definition new_database : database :=
  {| db_batch_id := empty_table _; db_centra := empty_table _;
     db_delivery := empty_table _ |}.

(** What [Batch_of_row] validates to. *)
Definition Batch_view (b : batch_id.row) : Batch.t :=
  {| Batch.Batch_ID := batch_id.Batch_ID b;
     Batch.RawWeight := batch_id.RawWeight b;
     Batch.InTimeRaw := batch_id.InTimeRaw b;
     Batch.InTimeWet := batch_id.InTimeWet b;
     Batch.OutTimeWet := batch_id.OutTimeWet b;
     Batch.WetWeight := batch_id.WetWeight b;
     Batch.InTimeDry := batch_id.InTimeDry b;
     Batch.OutTimeDry := batch_id.OutTimeDry b;
     Batch.DryWeight := batch_id.DryWeight b;
     Batch.InTimePowder := batch_id.InTimePowder b;
     Batch.OutTimePowder := batch_id.OutTimePowder b;
     Batch.PowderWeight := batch_id.PowderWeight b;
     Batch.Status := batch_id.Status b;
     Batch.Centra_ID := batch_id.Centra_ID b;
     Batch.Package_ID := batch_id.Package_ID b;
     Batch.WeightRescale := batch_id.WeightRescale b |}.

(** * Properties *)

(** ** Lists of rows *)

Section Rows.
Variable R : Type.
Variable cond : R -> bool.

Lemma update_rows_total (f : R -> R) (l : list R) :
  update_rows cond (fun r => Ok (f r)) l = Ok (updated cond f l).
Proof.
  unfold updated.
  induction l as [|r l IH]; simpl; [reflexivity|].
  rewrite IH. simpl. destruct (cond r); reflexivity.
Qed.


Lemma update_rows_no_match (set : R -> result R) (l : list R) :
  filter cond l = [] -> update_rows cond set l = Ok l.
Proof.
  induction l as [|r l IH]; simpl; [reflexivity|].
  destruct (cond r) eqn:E; [discriminate|].
  intros H. simpl. now rewrite IH.
Qed.

Lemma hd_error_filter_none (l : list R) :
  hd_error (filter cond l) = None -> filter cond l = [].
Proof. destruct (filter cond l); [reflexivity | discriminate]. Qed.

Lemma updated_id (l : list R) : updated cond (fun r => r) l = l.
Proof.
  unfold updated.
  induction l as [|r l IH]; simpl; [reflexivity|].
  rewrite IH. now destruct (cond r).
Qed.

(** Reading back the first matching row after an update that keeps the
    condition: it is the old first match, updated. *)
Lemma first_updated (f : R -> R) (l : list R) :
  (forall r, cond (f r) = cond r) ->
  hd_error (filter cond (updated cond f l))
  = option_map f (hd_error (filter cond l)).
Proof.
  intros Hf. unfold updated.
  induction l as [|r l IH]; simpl; [reflexivity|].
  destruct (cond r) eqn:E.
  - rewrite Hf, E. reflexivity.
  - rewrite E. exact IH.
Qed.

Lemma filter_deleted (l : list R) :
  filter cond (filter (fun r => negb (cond r)) l) = [].
Proof.
  induction l as [|r l IH]; simpl; [reflexivity|].
  destruct (cond r) eqn:E; simpl; [exact IH|].
  now rewrite E.
Qed.

Lemma first_match_in (l : list R) (r : R) :
  hd_error (filter cond l) = Some r -> In r l /\ cond r = true.
Proof.
  intros H. apply filter_In.
  destruct (filter cond l) as [|x l']; [discriminate|].
  simpl in H. injection H as ->. now left.
Qed.

End Rows.

Lemma filter_all (R : Type) (l : list R) : filter (fun _ => true) l = l.
Proof. induction l as [|r l IH]; simpl; congruence. Qed.

(** ** What each handler computes *)

(** ** Stored integers are in range *)

Arguments in_int64 : simpl never.
Arguments wrap64 : simpl never.
Arguments stored : simpl never.

Lemma int64_ext (a b : int64) : int64_val a = int64_val b -> a = b.
Proof.
  destruct a as [a Ha], b as [b Hb]. cbn. intros ->.
  f_equal. apply UIP_dec. apply bool_dec.
Qed.

Lemma wrap64_in_range (z : Z) : in_int64 z = true -> wrap64 z = z.
Proof.
  unfold in_int64, wrap64. intros H.
  apply andb_prop in H as [H1 H2]. apply Z.leb_le in H1. apply Z.ltb_lt in H2.
  rewrite Z.mod_small; lia.
Qed.

Lemma val_stored (z : Z) : in_int64 z = true -> int64_val (stored z) = z.
Proof. apply wrap64_in_range. Qed.

Lemma stored_val (x : int64) : stored x = x.
Proof. apply int64_ext. cbn. apply wrap64_in_range, int64_range. Qed.

Lemma bind_ints_nil : bind_ints [] = Ok tt.
Proof. reflexivity. Qed.

Lemma bind_ints_one (a : Z) :
  bind_ints [a] = if in_int64 a then Ok tt else Raise overflow.
Proof. unfold bind_ints. cbn. now rewrite andb_true_r. Qed.

Lemma bind_ints_two (a b : Z) :
  bind_ints [a; b] = if in_int64 a && in_int64 b then Ok tt else Raise overflow.
Proof. unfold bind_ints. cbn. now rewrite andb_true_r. Qed.

Lemma bind_ints_stored (v : option int64) :
  bind_ints (int_param (option_map int64_val v)) = Ok tt.
Proof.
  destruct v as [x|]; [|reflexivity]. cbn [option_map int_param].
  now rewrite bind_ints_one, int64_range.
Qed.

Lemma stored_key_in_range (R : Type) (key : R -> int64) (id : Z) (l : list R) (r : R) :
  hd_error (filter (fun x => key x =? id) l) = Some r -> in_int64 id = true.
Proof.
  intros H. apply first_match_in in H as [_ H].
  apply Z.eqb_eq in H. rewrite <- H. apply int64_range.
Qed.

Lemma out_of_range_unmatched (R : Type) (key : R -> int64) (id : Z) (l : list R) :
  in_int64 id = false -> filter (fun x => key x =? id) l = [].
Proof.
  intros H. induction l as [|x l IH]; cbn; [reflexivity|].
  destruct (key x =? id) eqn:E; [|exact IH].
  apply Z.eqb_eq in E. rewrite <- E, int64_range in H. discriminate.
Qed.

Arguments bind_ints : simpl never.

(** The rows of the join GET /batch/{id}/delivery fetches from. *)
Definition joined (id : Z) (d : database) : list delivery.row :=
  flat_map
    (fun b => filter (fun p => eq_param (delivery.Package_ID p) (batch_id.Package_ID b))
                     (rows (db_delivery d)))
    (filter (has_Batch_ID id) (rows (db_batch_id d))).

(** ** What each handler computes *)

Ltac run_handler :=
  unfold get_all_batches, get_raw_weight, get_wet_weight, get_dry_weight,
    get_powder_weight, get_delivery_info, get_all_packages,
    update_package_status, update_delivery_status, update_outdelivery,
    update_batches_status, get_last_seven_batches_weights,
    get_all_batches_from_centra, add_wet_weight, add_dry_weight,
    add_powder_weight, add_batch, add_package, update_package_id,
    get_all_centra, update_centra, delete_centra, delete_package,
    delete_batch, add_centra;
  unfold serve, answer, bind, ret, raise, lift, fetchone, fetchall,
    SELECT, UPDATE, INSERT, DELETE, SELECT_delivery_JOIN_batch_id, execute,
    conn_commit, conn_close, get_db_connection,
    batch_with, centra_with, package_with,
    with_batch_rows, with_centra_rows, with_delivery_rows;
  cbn;
  rewrite ?bind_ints_nil, ?bind_ints_one, ?bind_ints_two.

Lemma batch_with_in_range (d : database) (id : Z) (b : batch_id.row) :
  batch_with id d = Some b -> in_int64 id = true.
Proof. apply (@stored_key_in_range _ batch_id.Batch_ID_64). Qed.

Lemma centra_with_in_range (d : database) (id : Z) (c : centra.row) :
  centra_with id d = Some c -> in_int64 id = true.
Proof. apply (@stored_key_in_range _ centra.Centra_ID_64). Qed.


Lemma Batch_of_row_ok (b : batch_id.row) : Batch_of_row b = Ok (Batch_view b).
Proof. reflexivity. Qed.

Lemma Batch_of_id_fails (id : Z) :
  Batch_of_id id = Raise (ValidationError "Batch" "RawWeight").
Proof. reflexivity. Qed.

Lemma map_result_ok (A B : Type) (f : A -> B) (l : list A) :
  map_result (fun a => Ok (f a)) l = Ok (map f l).
Proof.
  induction l as [|a l IH]; simpl; [reflexivity|]. now rewrite IH.
Qed.

Lemma get_all_batches_run (d : database) :
  serve get_all_batches d = (Ok (map Batch_view (rows (db_batch_id d))), d).
Proof.
  run_handler. change Batch_of_row with (fun b => Ok (Batch_view b)).
  now rewrite filter_all, map_result_ok.
Qed.

Lemma get_raw_weight_run (d : database) (id : Z) :
  serve (get_raw_weight id) d
  = (if in_int64 id then
       match batch_with id d with
       | None => Raise (HTTPException 404 "Batch not found")
       | Some raw => Ok {| RawWeight.RawWeight := batch_id.RawWeight raw;
                           RawWeight.InTimeRaw := batch_id.InTimeRaw raw |}
       end
     else Raise overflow, d).
Proof.
  run_handler. destruct (in_int64 id); [|reflexivity]. cbn.
  now destruct (hd_error (filter (has_Batch_ID id) (rows (db_batch_id d)))).
Qed.

Lemma get_wet_weight_run (d : database) (id : Z) :
  serve (get_wet_weight id) d
  = (if in_int64 id then
       match batch_with id d with
       | None => Raise (HTTPException 404 "Batch not found")
       | Some wet => WetWeight.init (batch_id.WetWeight wet) (batch_id.InTimeWet wet)
                                    (batch_id.OutTimeWet wet)
       end
     else Raise overflow, d).
Proof.
  run_handler. destruct (in_int64 id); [|reflexivity]. cbn.
  now destruct (hd_error (filter (has_Batch_ID id) (rows (db_batch_id d)))).
Qed.

Lemma get_dry_weight_run (d : database) (id : Z) :
  serve (get_dry_weight id) d
  = (if in_int64 id then
       match batch_with id d with
       | None => Raise (HTTPException 404 "Batch not found")
       | Some dry => DryWeight.init (batch_id.DryWeight dry) (batch_id.InTimeDry dry)
                                    (batch_id.OutTimeDry dry)
       end
     else Raise overflow, d).
Proof.
  run_handler. destruct (in_int64 id); [|reflexivity]. cbn.
  now destruct (hd_error (filter (has_Batch_ID id) (rows (db_batch_id d)))).
Qed.

Lemma get_powder_weight_run (d : database) (id : Z) :
  serve (get_powder_weight id) d
  = (if in_int64 id then
       match batch_with id d with
       | None => Raise (HTTPException 404 "Batch not found")
       | Some powder =>
           PowderWeight.init (batch_id.PowderWeight powder)
                             (batch_id.InTimePowder powder)
                             (batch_id.OutTimePowder powder)
       end
     else Raise overflow, d).
Proof.
  run_handler. destruct (in_int64 id); [|reflexivity]. cbn.
  now destruct (hd_error (filter (has_Batch_ID id) (rows (db_batch_id d)))).
Qed.

Lemma get_delivery_info_run (d : database) (id : Z) :
  serve (get_delivery_info id) d
  = (if in_int64 id then
       match hd_error (joined id d) with
       | None => Raise (HTTPException 404 "Batch not found")
       | Some p => Ok (DeliveryInfo_of_row p)
       end
     else Raise overflow, d).
Proof.
  run_handler. unfold joined. destruct (in_int64 id); [|reflexivity]. cbn.
  now destruct (hd_error _).
Qed.

Lemma get_delivery_info_reads (d : database) (id : Z) :
  snd (serve (get_delivery_info id) d) = d.
Proof. now rewrite get_delivery_info_run. Qed.

Lemma get_all_packages_run (d : database) :
  serve get_all_packages d = (Ok (map DeliveryInfo_of_row (rows (db_delivery d))), d).
Proof. run_handler. now rewrite filter_all. Qed.

Lemma get_all_centra_run (d : database) :
  serve get_all_centra d = (Ok (map Centra_of_row (rows (db_centra d))), d).
Proof. run_handler. now rewrite filter_all. Qed.

Lemma update_package_status_run (d : database) (id : Z) (status : UpdateStatus.t) :
  serve (update_package_status id status) d
  = if in_int64 id then
      (Ok status,
       with_delivery_rows
         (updated (has_Package_ID id) (delivery.set_Status (UpdateStatus.Status status))
                  (rows (db_delivery d))) d)
    else (Raise overflow, d).
Proof.
  run_handler. destruct (in_int64 id); [|reflexivity]. cbn.
  now rewrite update_rows_total.
Qed.

Lemma update_delivery_status_run (d : database) (id : Z) (status : UpdateStatus.t) :
  serve (update_delivery_status id status) d
  = if in_int64 id then
      match batch_with id d with
      | None => (Raise (HTTPException 404 "Batch not found"), d)
      | Some b =>
          (Ok status,
           with_delivery_rows
             (updated (fun p => eq_param (delivery.Package_ID p) (batch_id.Package_ID b))
                      (delivery.set_Status (UpdateStatus.Status status))
                      (rows (db_delivery d))) d)
      end
    else (Raise overflow, d).
Proof.
  run_handler. destruct (in_int64 id); [|reflexivity]. cbn.
  destruct (hd_error (filter (has_Batch_ID id) (rows (db_batch_id d)))) as [b|]; cbn;
    [|reflexivity].
  unfold execute. cbn. unfold batch_id.Package_ID. rewrite bind_ints_stored. cbn.
  now rewrite update_rows_total.
Qed.

Lemma update_outdelivery_run (d : database) (id : Z) (outdelivery : OutDelivery.t) :
  serve (update_outdelivery id outdelivery) d
  = (Raise (OperationalError "no such column: WeightRescale"), d).
Proof. reflexivity. Qed.

Lemma add_wet_weight_run (d : database) (id : Z) (wet : AddWetWeight.t) :
  serve (add_wet_weight id wet) d
  = if in_int64 (AddWetWeight.WetWeight wet) && in_int64 id then
      (Ok {| WetWeight.WetWeight := AddWetWeight.WetWeight wet;
             WetWeight.InTimeWet := AddWetWeight.InTimeWet wet;
             WetWeight.OutTimeWet := AddWetWeight.OutTimeWet wet |},
       with_batch_rows
         (updated (has_Batch_ID id)
                  (batch_id.set_wet (AddWetWeight.InTimeWet wet)
                                    (AddWetWeight.OutTimeWet wet)
                                    (AddWetWeight.WetWeight wet))
                  (rows (db_batch_id d))) d)
    else (Raise overflow, d).
Proof.
  run_handler. destruct (in_int64 _ && in_int64 id); [|reflexivity]. cbn.
  now rewrite update_rows_total.
Qed.

Lemma add_dry_weight_run (d : database) (id : Z) (dry : AddDryWeight.t) :
  serve (add_dry_weight id dry) d
  = if in_int64 (AddDryWeight.DryWeight dry) && in_int64 id then
      (Ok {| DryWeight.DryWeight := AddDryWeight.DryWeight dry;
             DryWeight.InTimeDry := AddDryWeight.InTimeDry dry;
             DryWeight.OutTimeDry := AddDryWeight.OutTimeDry dry |},
       with_batch_rows
         (updated (has_Batch_ID id)
                  (batch_id.set_dry (AddDryWeight.InTimeDry dry)
                                    (AddDryWeight.OutTimeDry dry)
                                    (AddDryWeight.DryWeight dry))
                  (rows (db_batch_id d))) d)
    else (Raise overflow, d).
Proof.
  run_handler. destruct (in_int64 _ && in_int64 id); [|reflexivity]. cbn.
  now rewrite update_rows_total.
Qed.

Lemma add_powder_weight_run (d : database) (id : Z) (powder : AddPowderWeight.t) :
  serve (add_powder_weight id powder) d
  = if in_int64 (AddPowderWeight.PowderWeight powder) && in_int64 id then
      (Ok {| PowderWeight.PowderWeight := AddPowderWeight.PowderWeight powder;
             PowderWeight.InTimePowder := AddPowderWeight.InTimePowder powder;
             PowderWeight.OutTimePowder := AddPowderWeight.OutTimePowder powder |},
       with_batch_rows
         (updated (has_Batch_ID id)
                  (batch_id.set_powder (AddPowderWeight.InTimePowder powder)
                                       (AddPowderWeight.OutTimePowder powder)
                                       (AddPowderWeight.PowderWeight powder))
                  (rows (db_batch_id d))) d)
    else (Raise overflow, d).
Proof.
  run_handler. destruct (in_int64 _ && in_int64 id); [|reflexivity]. cbn.
  now rewrite update_rows_total.
Qed.

Lemma update_package_id_run (d : database) (id : Z) (package : UpdatePackageID.t) :
  serve (update_package_id id package) d
  = if in_int64 (UpdatePackageID.Package_ID package) && in_int64 id then
      (Raise (ValidationError "Batch" "RawWeight"),
       with_batch_rows
         (updated (has_Batch_ID id)
                  (batch_id.set_Package_ID (UpdatePackageID.Package_ID package))
                  (rows (db_batch_id d))) d)
    else (Raise overflow, d).
Proof.
  run_handler. destruct (in_int64 _ && in_int64 id); [|reflexivity]. cbn.
  now rewrite update_rows_total.
Qed.

(** The store after the INSERT of a create handler. *)
Definition inserted {R : Type} (key : R -> Z) (values : Z -> R) (t : table R) : table R :=
  {| rows := rows t ++ [values (next_key key t)]; seq := next_key key t |}.

Definition full : exn := OperationalError "database or disk is full".

Lemma add_batch_run (d : database) (batch : NewBatch.t) :
  serve (add_batch batch) d
  = if in_int64 (NewBatch.RawWeight batch) && in_int64 (NewBatch.Centra_ID batch) then
      if in_int64 (next_key batch_id.Batch_ID (db_batch_id d)) then
        (Raise (ValidationError "Batch" "RawWeight"),
         {| db_batch_id :=
              inserted batch_id.Batch_ID (new_batch_row batch) (db_batch_id d);
            db_centra := db_centra d;
            db_delivery := db_delivery d |})
      else (Raise full, d)
    else (Raise overflow, d).
Proof.
  run_handler. destruct (in_int64 _ && in_int64 _); [|reflexivity]. cbn.
  now destruct (in_int64 (next_key _ _)).
Qed.

Lemma add_package_run (d : database) (package : NewPackage.t) :
  serve (add_package package) d
  = if in_int64 (next_key delivery.Package_ID (db_delivery d)) then
      (Ok {| DeliveryInfo.Package_ID := next_key delivery.Package_ID (db_delivery d);
             DeliveryInfo.Status := NewPackage.Status package;
             DeliveryInfo.InDeliveryTime := NewPackage.InDeliveryTime package;
             DeliveryInfo.ExpeditionType := NewPackage.ExpeditionType package |},
       {| db_batch_id := db_batch_id d;
          db_centra := db_centra d;
          db_delivery :=
            inserted delivery.Package_ID (new_package_row package) (db_delivery d) |})
    else (Raise full, d).
Proof. run_handler. now destruct (in_int64 (next_key _ _)). Qed.

Lemma add_centra_run (d : database) (centra : NewCentra.t) :
  serve (add_centra centra) d
  = if in_int64 (NewCentra.NumberOfEmployees centra) then
      if in_int64 (next_key centra.Centra_ID (db_centra d)) then
        (Ok {| Centra.Centra_ID := next_key centra.Centra_ID (db_centra d);
               Centra.CentraName := NewCentra.CentraName centra;
               Centra.CentraAddress := NewCentra.CentraAddress centra;
               Centra.NumberOfEmployees := NewCentra.NumberOfEmployees centra |},
         {| db_batch_id := db_batch_id d;
            db_centra := inserted centra.Centra_ID (new_centra_row centra) (db_centra d);
            db_delivery := db_delivery d |})
      else (Raise full, d)
    else (Raise overflow, d).
Proof.
  run_handler. destruct (in_int64 (NewCentra.NumberOfEmployees centra)); [|reflexivity].
  cbn. now destruct (in_int64 (next_key _ _)).
Qed.

Lemma delete_centra_run (d : database) (id : Z) :
  serve (delete_centra id) d
  = if in_int64 id then
      match centra_with id d with
      | None => (Raise (HTTPException 404 "Centra not found"), d)
      | Some c =>
          (Ok (Centra_of_row c),
           with_centra_rows
             (filter (fun r => negb (has_Centra_ID id r)) (rows (db_centra d))) d)
      end
    else (Raise overflow, d).
Proof.
  run_handler. destruct (in_int64 id); [|reflexivity]. cbn.
  now destruct (hd_error (filter (has_Centra_ID id) (rows (db_centra d)))).
Qed.

Lemma delete_package_run (d : database) (id : Z) :
  serve (delete_package id) d
  = if in_int64 id then
      match package_with id d with
      | None => (Raise (HTTPException 404 "Package not found"), d)
      | Some p =>
          (Ok (DeliveryInfo_of_row p),
           with_delivery_rows
             (filter (fun r => negb (has_Package_ID id r)) (rows (db_delivery d))) d)
      end
    else (Raise overflow, d).
Proof.
  run_handler. destruct (in_int64 id); [|reflexivity]. cbn.
  now destruct (hd_error (filter (has_Package_ID id) (rows (db_delivery d)))).
Qed.

Lemma delete_batch_run (d : database) (id : Z) :
  serve (delete_batch id) d
  = if in_int64 id then
      match batch_with id d with
      | None => (Raise (HTTPException 404 "Batch not found"), d)
      | Some b =>
          (Ok (Batch_view b),
           with_batch_rows
             (filter (fun r => negb (has_Batch_ID id r)) (rows (db_batch_id d))) d)
      end
    else (Raise overflow, d).
Proof.
  run_handler. destruct (in_int64 id); [|reflexivity]. cbn.
  now destruct (hd_error (filter (has_Batch_ID id) (rows (db_batch_id d)))).
Qed.

Lemma get_last_seven_batches_weights_run (d : database) (id : Z) :
  serve (get_last_seven_batches_weights id) d
  = (if in_int64 id then
       Ok (map WeightInfo_of_row
             (LIMIT 7 (ORDER_BY_DESC batch_id.InTimeRaw
                         (filter (fun b => batch_id.Centra_ID b =? id)
                                 (rows (db_batch_id d))))))
     else Raise overflow, d).
Proof. run_handler. now destruct (in_int64 id). Qed.

Lemma get_all_batches_from_centra_run (d : database) (id : Z) :
  serve (get_all_batches_from_centra id) d
  = (if in_int64 id then
       match filter (fun b => batch_id.Centra_ID b =? id) (rows (db_batch_id d)) with
       | [] => Ok []
       | _ :: _ => Raise (ValidationError "Batch" "RawWeight")
       end
     else Raise overflow, d).
Proof.
  run_handler. destruct (in_int64 id); [|reflexivity]. cbn.
  now destruct (filter (fun b => batch_id.Centra_ID b =? id) (rows (db_batch_id d))).
Qed.

(** *** The loop of the bulk status update *)

Definition listed (ids : list Z) (b : batch_id.row) : bool :=
  existsb (Z.eqb (batch_id.Batch_ID b)) ids.

Lemma connection_eta (c : connection) : {| disk := disk c; txn := txn c |} = c.
Proof. now destruct c. Qed.

Lemma with_batch_rows_same (d : database) :
  with_batch_rows (rows (db_batch_id d)) d = d.
Proof. destruct d as [[? ?] ? ?]. reflexivity. Qed.

Lemma with_centra_rows_same (d : database) :
  with_centra_rows (rows (db_centra d)) d = d.
Proof. destruct d as [? [? ?] ?]. reflexivity. Qed.


Definition status_update (s : string) (batch_id : Z) : M unit :=
  UPDATE BATCH_ID ["Status"; "Batch_ID"] [batch_id]
         (fun b => Ok (batch_id.set_Status s b)) (has_Batch_ID batch_id).

Lemma status_loop (s : string) (ids : list Z) (c : connection) :
  forallb in_int64 ids = true ->
  for_each ids (status_update s) c
  = (Ok tt,
     {| disk := disk c;
        txn := with_batch_rows
                 (fold_left (fun l id => updated (has_Batch_ID id) (batch_id.set_Status s) l)
                            ids (rows (db_batch_id (txn c))))
                 (txn c) |}).
Proof.
  revert c. induction ids as [|id ids IH]; intros c Hin.
  - cbn. unfold ret. now rewrite with_batch_rows_same, connection_eta.
  - cbn [forallb] in Hin. apply andb_prop in Hin as [Hid Hin].
    cbn [for_each fold_left]. unfold bind at 1. unfold status_update at 1.
    unfold UPDATE, execute. cbn. rewrite bind_ints_one, Hid. cbn.
    rewrite update_rows_total. rewrite (IH _ Hin). reflexivity.
Qed.

Lemma status_loop_overflow (s : string) (ids : list Z) (c : connection) :
  forallb in_int64 ids = false ->
  exists c', for_each ids (status_update s) c = (Raise overflow, c')
             /\ disk c' = disk c.
Proof.
  revert c. induction ids as [|id ids IH]; intros c Hin; [discriminate|].
  cbn [forallb] in Hin.
  cbn [for_each]. unfold bind at 1. unfold status_update at 1.
  unfold UPDATE, execute. cbn. rewrite bind_ints_one.
  destruct (in_int64 id); cbn.
  - rewrite update_rows_total. cbn in Hin.
    destruct (IH {| disk := disk c;
                    txn := {| db_batch_id :=
                                {| rows := updated (has_Batch_ID id)
                                             (batch_id.set_Status s)
                                             (rows (db_batch_id (txn c)));
                                   seq := seq (db_batch_id (txn c)) |};
                              db_centra := db_centra (txn c);
                              db_delivery := db_delivery (txn c) |} |} Hin)
      as (c' & Hrun & Hdisk).
    exists c'. split; [exact Hrun | exact Hdisk].
  - exists c. now split.
Qed.

Lemma status_fold_row (s : string) (ids : list Z) (b : batch_id.row) :
  fold_left (fun r id => if has_Batch_ID id r then batch_id.set_Status s r else r) ids b
  = if listed ids b then batch_id.set_Status s b else b.
Proof.
  revert b. induction ids as [|id ids IH]; intros b; [reflexivity|].
  cbn [fold_left]. rewrite IH. unfold listed, has_Batch_ID. cbn [existsb].
  destruct (batch_id.Batch_ID b =? id) eqn:E; cbn.
  - change (batch_id.Batch_ID (batch_id.set_Status s b)) with (batch_id.Batch_ID b).
    now destruct (existsb _ ids).
  - reflexivity.
Qed.

Lemma status_fold (s : string) (ids : list Z) (l : list batch_id.row) :
  fold_left (fun l id => updated (has_Batch_ID id) (batch_id.set_Status s) l) ids l
  = updated (listed ids) (batch_id.set_Status s) l.
Proof.
  induction l as [|b l IH].
  - induction ids as [|id ids IHi]; [reflexivity | exact IHi].
  - transitivity
      (fold_left (fun r id => if has_Batch_ID id r then batch_id.set_Status s r else r)
                 ids b
       :: fold_left (fun l id => updated (has_Batch_ID id) (batch_id.set_Status s) l)
                    ids l).
    + clear IH. revert b l. induction ids as [|id ids IHi]; intros b l; [reflexivity|].
      cbn [fold_left]. unfold updated at 2. cbn [map]. fold (updated (has_Batch_ID id) (batch_id.set_Status s) l).
      apply IHi.
    + rewrite IH, status_fold_row. reflexivity.
Qed.

Lemma update_batches_status_run (d : database) (batch_update : BatchUpdateStatus.t) :
  serve (update_batches_status batch_update) d
  = if forallb in_int64 (BatchUpdateStatus.Batch_IDs batch_update) then
      (Ok batch_update,
       with_batch_rows
         (updated (listed (BatchUpdateStatus.Batch_IDs batch_update))
                  (batch_id.set_Status (BatchUpdateStatus.Status batch_update))
                  (rows (db_batch_id d))) d)
    else (Raise overflow, d).
Proof.
  unfold update_batches_status, serve. unfold bind at 1.
  fold (status_update (BatchUpdateStatus.Status batch_update)).
  destruct (forallb in_int64 (BatchUpdateStatus.Batch_IDs batch_update)) eqn:E.
  - rewrite (@status_loop _ _ _ E). cbn. now rewrite status_fold.
  - destruct (@status_loop_overflow (BatchUpdateStatus.Status batch_update) _
                (get_db_connection d) E) as (c' & -> & Hdisk).
    now rewrite Hdisk.
Qed.

(** *** The partial centra update *)

Definition pick {A : Type} (g : given A) (old : A) : A :=
  match g with
  | Given (Some v) => v
  | _ => old
  end.

(** A row of centra after the fields a body carries have been assigned. *)
Definition merged (body : UpdateCentra.t) (r : centra.row) : centra.row :=
  {| centra.Centra_ID_64 := centra.Centra_ID_64 r;
     centra.CentraName := pick (UpdateCentra.CentraName body) (centra.CentraName r);
     centra.CentraAddress :=
       pick (UpdateCentra.CentraAddress body) (centra.CentraAddress r);
     centra.NumberOfEmployees_64 :=
       match UpdateCentra.NumberOfEmployees body with
       | Given (Some n) => stored n
       | _ => centra.NumberOfEmployees_64 r
       end |}.

Definition is_null {A : Type} (g : given A) : bool :=
  match g with
  | Given None => true
  | _ => false
  end.

(** The body sends some field as null. *)
Definition has_null (body : UpdateCentra.t) : bool :=
  is_null (UpdateCentra.CentraName body)
  || is_null (UpdateCentra.CentraAddress body)
  || is_null (UpdateCentra.NumberOfEmployees body).

(** The employee count of the body, when it carries one, fits 64 bits. *)
Definition employees_fit (body : UpdateCentra.t) : bool :=
  match UpdateCentra.NumberOfEmployees body with
  | Given (Some n) => in_int64 n
  | _ => true
  end.

Definition empty_body : UpdateCentra.t :=
  {| UpdateCentra.CentraName := Unset;
     UpdateCentra.CentraAddress := Unset;
     UpdateCentra.NumberOfEmployees := Unset |}.
Section Rows2.
Variable R : Type.
Variable cond : R -> bool.

Lemma update_rows_raise (set : R -> result R) (e : exn) (l : list R) (r : R) :
  (forall r, set r = Raise e) ->
  hd_error (filter cond l) = Some r ->
  update_rows cond set l = Raise e.
Proof.
  intros Hset. induction l as [|x l IH]; simpl; [discriminate|].
  destruct (cond x) eqn:E.
  - intros _. now rewrite Hset.
  - intros H. simpl. now rewrite (IH H).
Qed.

Lemma updated_compose (f g : R -> R) (l : list R) :
  (forall r, cond (f r) = cond r) ->
  updated cond g (updated cond f l) = updated cond (fun r => g (f r)) l.
Proof.
  intros Hf. unfold updated. rewrite map_map. apply map_ext. intros r.
  destruct (cond r) eqn:E; [now rewrite Hf, E | now rewrite E].
Qed.

Lemma updated_ext (f g : R -> R) (l : list R) :
  (forall r, f r = g r) -> updated cond f l = updated cond g l.
Proof.
  intros H. unfold updated. apply map_ext. intros r. now rewrite H.
Qed.
End Rows2.


Definition item_null (i : UpdateCentra.item) : bool :=
  match i with
  | UpdateCentra.item_CentraName None
  | UpdateCentra.item_CentraAddress None
  | UpdateCentra.item_NumberOfEmployees None => true
  | _ => false
  end.

Definition item_fits (i : UpdateCentra.item) : bool :=
  forallb in_int64 (UpdateCentra.int_value i).

Definition item_fails (i : UpdateCentra.item) : bool :=
  item_null i || negb (item_fits i).

(** One non-null assignment, as a function on rows. *)
Definition assigned (i : UpdateCentra.item) (r : centra.row) : centra.row :=
  match i with
  | UpdateCentra.item_CentraName (Some v) => centra.set_CentraName v r
  | UpdateCentra.item_CentraAddress (Some v) => centra.set_CentraAddress v r
  | UpdateCentra.item_NumberOfEmployees (Some v) => centra.set_NumberOfEmployees v r
  | _ => r
  end.

Definition assigned_all (items : list UpdateCentra.item) (r : centra.row) : centra.row :=
  fold_left (fun r i => assigned i r) items r.

Definition centra_update (centra_id : Z) (kv : UpdateCentra.item) : M unit :=
  UPDATE CENTRA [UpdateCentra.key kv; "Centra_ID"]
         (UpdateCentra.int_value kv ++ [centra_id])
         (UpdateCentra.assign kv) (has_Centra_ID centra_id).

Lemma assign_ok (i : UpdateCentra.item) (r : centra.row) :
  item_null i = false -> UpdateCentra.assign i r = Ok (assigned i r).
Proof. destruct i as [[v|]|[v|]|[v|]]; intros H; try discriminate H; reflexivity. Qed.

Lemma assign_null (i : UpdateCentra.item) :
  item_null i = true ->
  exists msg, forall r, UpdateCentra.assign i r = Raise (IntegrityError msg).
Proof.
  destruct i as [[v|]|[v|]|[v|]]; intros H; try discriminate H;
    eexists; intros r; reflexivity.
Qed.

Lemma key_known (i : UpdateCentra.item) :
  prepare centra.columns [UpdateCentra.key i; "Centra_ID"] = Ok tt.
Proof. destruct i; reflexivity. Qed.

Lemma item_binds (i : UpdateCentra.item) (id : Z) :
  in_int64 id = true ->
  bind_ints (UpdateCentra.int_value i ++ [id])
  = if item_fits i then Ok tt else Raise overflow.
Proof.
  intros Hid. unfold bind_ints, item_fits. rewrite forallb_app. cbn.
  rewrite Hid. cbn. now rewrite andb_true_r.
Qed.

Lemma null_item_fits (i : UpdateCentra.item) : item_null i = true -> item_fits i = true.
Proof. destruct i as [[v|]|[v|]|[v|]]; intros H; try discriminate H; reflexivity. Qed.

Lemma assigned_keeps_key (id : Z) (i : UpdateCentra.item) (r : centra.row) :
  has_Centra_ID id (assigned i r) = has_Centra_ID id r.
Proof. destruct i as [[v|]|[v|]|[v|]]; reflexivity. Qed.

Lemma assigned_all_keeps_key (id : Z) (items : list UpdateCentra.item)
    (r : centra.row) :
  has_Centra_ID id (assigned_all items r) = has_Centra_ID id r.
Proof.
  unfold assigned_all. revert r.
  induction items as [|i items IH]; intros r; [reflexivity|].
  cbn [fold_left]. now rewrite IH, assigned_keeps_key.
Qed.

Lemma update_rows_ext (R : Type) (cond : R -> bool) (set : R -> result R)
    (f : R -> R) (l : list R) :
  (forall r, set r = Ok (f r)) -> update_rows cond set l = Ok (updated cond f l).
Proof.
  intros H. rewrite <- update_rows_total.
  induction l as [|r l IH]; simpl; [reflexivity|]. now rewrite IH, H.
Qed.

Lemma centra_update_ok (id : Z) (i : UpdateCentra.item) (c : connection) :
  in_int64 id = true ->
  item_fails i = false ->
  centra_update id i c
  = (Ok tt,
     {| disk := disk c;
        txn := with_centra_rows
                 (updated (has_Centra_ID id) (assigned i) (rows (db_centra (txn c))))
                 (txn c) |}).
Proof.
  intros Hid Hi. apply orb_false_iff in Hi as [Hnull Hfit].
  apply negb_false_iff in Hfit.
  unfold centra_update, UPDATE, execute. cbn [rel_columns rel_get rel_put CENTRA].
  rewrite key_known. cbn [rbind]. rewrite (@item_binds i id Hid), Hfit.
  now rewrite (update_rows_ext _ _ (assigned i)) by (intros r; now apply assign_ok).
Qed.

Lemma centra_update_fails (id : Z) (i : UpdateCentra.item) (c : connection)
    (r : centra.row) :
  in_int64 id = true ->
  item_fails i = true ->
  hd_error (filter (has_Centra_ID id) (rows (db_centra (txn c)))) = Some r ->
  exists e,
    centra_update id i c = (Raise e, c)
    /\ (item_null i = true -> exists msg, e = IntegrityError msg)
    /\ (item_null i = false -> e = overflow).
Proof.
  intros Hid Hi Hr.
  unfold centra_update, UPDATE, execute. cbn [rel_columns rel_get rel_put CENTRA].
  rewrite key_known. cbn [rbind]. rewrite (@item_binds i id Hid).
  destruct (item_null i) eqn:Hnull.
  - rewrite (@null_item_fits i Hnull).
    destruct (@assign_null i Hnull) as [msg Hmsg].
    rewrite (update_rows_raise _ _ _ Hmsg Hr).
    exists (IntegrityError msg). split; [reflexivity|]. split; [eauto | discriminate].
  - unfold item_fails in Hi. rewrite Hnull in Hi. cbn in Hi.
    apply negb_true_iff in Hi. rewrite Hi.
    exists overflow. split; [reflexivity|]. split; [discriminate | reflexivity].
Qed.

Lemma centra_loop_ok (id : Z) (items : list UpdateCentra.item) (c : connection) :
  in_int64 id = true ->
  existsb item_fails items = false ->
  for_each items (centra_update id) c
  = (Ok tt,
     {| disk := disk c;
        txn := with_centra_rows
                 (updated (has_Centra_ID id) (assigned_all items)
                          (rows (db_centra (txn c))))
                 (txn c) |}).
Proof.
  intros Hid. revert c. induction items as [|i items IH]; intros c Hn.
  - cbn. unfold ret, assigned_all. cbn.
    now rewrite updated_id, with_centra_rows_same, connection_eta.
  - cbn [existsb] in Hn. apply orb_false_iff in Hn as [Hi Hn].
    cbn [for_each]. unfold bind at 1.
    rewrite (@centra_update_ok id i c Hid Hi).
    rewrite (IH _ Hn). cbn.
    rewrite updated_compose by (intros r; apply assigned_keeps_key).
    reflexivity.
Qed.

Lemma centra_loop_fails (id : Z) (items : list UpdateCentra.item) (c : connection)
    (r : centra.row) (i : UpdateCentra.item) :
  in_int64 id = true ->
  find item_fails items = Some i ->
  hd_error (filter (has_Centra_ID id) (rows (db_centra (txn c)))) = Some r ->
  exists e c',
    for_each items (centra_update id) c = (Raise e, c')
    /\ disk c' = disk c
    /\ (item_null i = true -> exists msg, e = IntegrityError msg)
    /\ (item_null i = false -> e = overflow).
Proof.
  intros Hid. revert c r.
  induction items as [|j items IH]; intros c r Hfind Hr; [discriminate|].
  cbn [find] in Hfind. cbn [for_each]. unfold bind at 1.
  destruct (item_fails j) eqn:Hj.
  - injection Hfind as ->.
    destruct (@centra_update_fails id i c r Hid Hj Hr) as (e & -> & H1 & H2).
    exists e, c. auto.
  - rewrite (@centra_update_ok id j c Hid Hj).
    destruct (IH {| disk := disk c;
                    txn := with_centra_rows
                             (updated (has_Centra_ID id) (assigned j)
                                      (rows (db_centra (txn c)))) (txn c) |}
                 (assigned j r) Hfind) as (e & c' & Hrun & Hdisk & H1 & H2).
    + cbn. rewrite first_updated by (intros x; apply assigned_keeps_key).
      now rewrite Hr.
    + exists e, c'. auto.
Qed.

Lemma items_ok (body : UpdateCentra.t) :
  has_null body = false ->
  employees_fit body = true ->
  existsb item_fails (UpdateCentra.dict_exclude_unset body) = false.
Proof.
  destruct body as [[|[n|]] [|[a|]] [|[e|]]]; intros H F; try discriminate H;
    cbn in *; unfold item_fails, item_fits; cbn; rewrite ?F; reflexivity.
Qed.

Lemma items_null (body : UpdateCentra.t) :
  has_null body = true ->
  exists i, find item_fails (UpdateCentra.dict_exclude_unset body) = Some i
            /\ item_null i = true.
Proof.
  destruct body as [[|[n|]] [|[a|]] [|[e|]]]; intros H; try discriminate H;
    cbn; eexists; split; reflexivity.
Qed.

Lemma items_too_large (body : UpdateCentra.t) :
  has_null body = false ->
  employees_fit body = false ->
  exists i, find item_fails (UpdateCentra.dict_exclude_unset body) = Some i
            /\ item_null i = false.
Proof.
  destruct body as [[|[n|]] [|[a|]] [|[e|]]]; intros H F; try discriminate H;
    try discriminate F; cbn in F;
    exists (UpdateCentra.item_NumberOfEmployees (Some e));
    cbn; unfold item_fails, item_fits; cbn; rewrite F; cbn; split; reflexivity.
Qed.

Lemma items_merged (body : UpdateCentra.t) (r : centra.row) :
  has_null body = false ->
  assigned_all (UpdateCentra.dict_exclude_unset body) r = merged body r.
Proof.
  destruct r.
  destruct body as [[|[n|]] [|[a|]] [|[e|]]]; intros H; try discriminate H;
    reflexivity.
Qed.

Lemma fetchone_centra (c : connection) (id : Z) :
  fetchone (SELECT CENTRA ["Centra_ID"] [id] (has_Centra_ID id)) c
  = (if in_int64 id then Ok (centra_with id (txn c)) else Raise overflow, c).
Proof.
  unfold fetchone, SELECT, execute, bind, ret, centra_with. cbn.
  rewrite bind_ints_one. now destruct (in_int64 id).
Qed.

Lemma update_centra_overflow (d : database) (id : Z) (body : UpdateCentra.t) :
  in_int64 id = false ->
  serve (update_centra id body) d = (Raise overflow, d).
Proof.
  intros Hid. unfold update_centra, serve. unfold bind at 1.
  now rewrite fetchone_centra, Hid.
Qed.

Lemma update_centra_missing (d : database) (id : Z) (body : UpdateCentra.t) :
  in_int64 id = true ->
  centra_with id d = None ->
  serve (update_centra id body) d = (Raise (HTTPException 404 "Centra not found"), d).
Proof.
  intros Hid Hc. unfold update_centra, serve. unfold bind at 1.
  rewrite fetchone_centra, Hid. cbn [get_db_connection txn]. now rewrite Hc.
Qed.

Lemma update_centra_applies (d : database) (id : Z) (body : UpdateCentra.t)
    (c : centra.row) :
  centra_with id d = Some c ->
  has_null body = false ->
  employees_fit body = true ->
  serve (update_centra id body) d
  = (Ok (Centra_of_row (merged body c)),
     with_centra_rows
       (updated (has_Centra_ID id) (merged body) (rows (db_centra d))) d).
Proof.
  intros Hc Hn Hf. pose proof (@centra_with_in_range d id c Hc) as Hid.
  unfold update_centra, serve. unfold bind at 1.
  rewrite fetchone_centra, Hid. cbn [get_db_connection txn]. rewrite Hc.
  unfold bind at 1. fold (centra_update id).
  rewrite (@centra_loop_ok id _ _ Hid (@items_ok body Hn Hf)).
  unfold bind at 1. unfold conn_commit at 1.
  unfold bind at 1. rewrite fetchone_centra, Hid. unfold centra_with.
  cbn [txn disk with_centra_rows db_centra rows].
  rewrite first_updated by (intros x; apply assigned_all_keeps_key).
  cbn [get_db_connection txn]. fold (centra_with id d). rewrite Hc. cbn.
  rewrite (@items_merged body c Hn).
  f_equal. unfold with_centra_rows. f_equal. f_equal.
  apply updated_ext. intros r. now apply items_merged.
Qed.

Lemma update_centra_fails (d : database) (id : Z) (body : UpdateCentra.t)
    (c : centra.row) (i : UpdateCentra.item) :
  centra_with id d = Some c ->
  find item_fails (UpdateCentra.dict_exclude_unset body) = Some i ->
  exists e,
    serve (update_centra id body) d = (Raise e, d)
    /\ (item_null i = true -> exists msg, e = IntegrityError msg)
    /\ (item_null i = false -> e = overflow).
Proof.
  intros Hc Hfind. pose proof (@centra_with_in_range d id c Hc) as Hid.
  unfold update_centra, serve. unfold bind at 1.
  rewrite fetchone_centra, Hid. cbn [get_db_connection txn]. rewrite Hc.
  unfold bind at 1. fold (centra_update id).
  destruct (@centra_loop_fails id (UpdateCentra.dict_exclude_unset body)
              (get_db_connection d) c i Hid Hfind Hc)
    as (e & c' & Hrun & Hdisk & H1 & H2).
  rewrite Hrun. exists e. rewrite Hdisk. auto.
Qed.

Lemma update_centra_null (d : database) (id : Z) (body : UpdateCentra.t)
    (c : centra.row) :
  centra_with id d = Some c ->
  has_null body = true ->
  exists msg,
    serve (update_centra id body) d = (Raise (IntegrityError msg), d).
Proof.
  intros Hc Hn. destruct (@items_null body Hn) as (i & Hfind & Hi).
  destruct (@update_centra_fails d id body c i Hc Hfind) as (e & Hrun & H1 & _).
  destruct (H1 Hi) as [msg ->]. now exists msg.
Qed.

Lemma update_centra_too_large (d : database) (id : Z) (body : UpdateCentra.t)
    (c : centra.row) :
  centra_with id d = Some c ->
  has_null body = false ->
  employees_fit body = false ->
  serve (update_centra id body) d = (Raise overflow, d).
Proof.
  intros Hc Hn Hf. destruct (@items_too_large body Hn Hf) as (i & Hfind & Hi).
  destruct (@update_centra_fails d id body c i Hc Hfind) as (e & Hrun & _ & H2).
  now rewrite Hrun, (H2 Hi).
Qed.
(** ** ORDER BY ... DESC LIMIT n *)


Section OrderBy.
Variable R : Type.
Variable key : R -> string.







End OrderBy.

(** ** Generated keys *)

Lemma max_key_bound (R : Type) (key : R -> Z) (l : list R) (r : R) :
  In r l -> key r <= max_key key l.
Proof.
  induction l as [|x l IH]; simpl; [intros []|].
  intros [<-|H]; [lia|]. specialize (IH H). lia.
Qed.

Lemma next_key_fresh (R : Type) (key : R -> Z) (t : table R) (r : R) :
  In r (rows t) -> key r < next_key key t.
Proof.
  intros H. apply (max_key_bound key) in H. unfold next_key. lia.
Qed.

Lemma fresh_key_unmatched (R : Type) (key : R -> Z) (t : table R) :
  filter (fun r => key r =? next_key key t) (rows t) = [].
Proof.
  assert (H : forall r, In r (rows t) -> (key r =? next_key key t) = false).
  { intros r Hr. apply (next_key_fresh key) in Hr. lia. }
  induction (rows t) as [|x l IH]; simpl; [reflexivity|].
  rewrite H by now left. apply IH. intros r Hr. apply H. now right.
Qed.

(** The two create handlers that answer with the created entity: one row is
    appended, its key is new, and the reply carries the body and the key. *)

(** The two create handlers that answer with the created entity: when the
    integers of the body fit 64 bits and the table still has a key to give,
    one row is appended, its key is new, and the reply carries the body and
    the key. *)
Lemma add_package_creates (d : database) (package : NewPackage.t) :
  let id := next_key delivery.Package_ID (db_delivery d) in
  in_int64 id = true ->
  serve (add_package package) d
  = (Ok {| DeliveryInfo.Package_ID := id;
           DeliveryInfo.Status := NewPackage.Status package;
           DeliveryInfo.InDeliveryTime := NewPackage.InDeliveryTime package;
           DeliveryInfo.ExpeditionType := NewPackage.ExpeditionType package |},
     {| db_batch_id := db_batch_id d;
        db_centra := db_centra d;
        db_delivery :=
          {| rows := rows (db_delivery d) ++ [new_package_row package id];
             seq := id |} |})
  /\ package_with id d = None.
Proof.
  intros id Hid. subst id. rewrite add_package_run, Hid.
  split; [reflexivity|].
  unfold package_with, has_Package_ID.
  now rewrite (fresh_key_unmatched delivery.Package_ID).
Qed.

Lemma add_centra_creates (d : database) (centra : NewCentra.t) :
  let id := next_key centra.Centra_ID (db_centra d) in
  in_int64 (NewCentra.NumberOfEmployees centra) = true ->
  in_int64 id = true ->
  serve (add_centra centra) d
  = (Ok {| Centra.Centra_ID := id;
           Centra.CentraName := NewCentra.CentraName centra;
           Centra.CentraAddress := NewCentra.CentraAddress centra;
           Centra.NumberOfEmployees := NewCentra.NumberOfEmployees centra |},
     {| db_batch_id := db_batch_id d;
        db_centra :=
          {| rows := rows (db_centra d) ++ [new_centra_row centra id]; seq := id |};
        db_delivery := db_delivery d |})
  /\ centra_with id d = None.
Proof.
  intros id Hn Hid. subst id. rewrite add_centra_run, Hn, Hid.
  split; [reflexivity|].
  unfold centra_with, has_Centra_ID.
  now rewrite (fresh_key_unmatched centra.Centra_ID).
Qed.

(** ** Sample data *)

Definition raw_batch : NewBatch.t :=
  {| NewBatch.RawWeight := 120; NewBatch.Status := "raw";
     NewBatch.Centra_ID := 1; NewBatch.InTimeRaw := "2024-05-01 08:30:00" |}.

(** A store holding one centra and one batch of it that has no package. *)
Definition one_batch : database :=
  {| db_batch_id := {| rows := [new_batch_row raw_batch 1]; seq := 1 |};
     db_centra :=
       {| rows := [centra.make 1 "North" "1 Mill Road" 12]; seq := 1 |};
     db_delivery := empty_table _ |}.

(** Batches 1, 2 and 3 of centra 1. *)
Definition three_batches : database :=
  {| db_batch_id :=
       {| rows := [new_batch_row raw_batch 1; new_batch_row raw_batch 2;
                   new_batch_row raw_batch 3];
          seq := 3 |};
     db_centra := db_centra one_batch;
     db_delivery := empty_table _ |}.

(** A store with one package and two batches, the first linked to it. *)
Definition linked : database :=
  {| db_batch_id :=
       {| rows := [batch_id.set_Package_ID 1 (new_batch_row raw_batch 1);
                   new_batch_row raw_batch 2];
          seq := 2 |};
     db_centra := db_centra one_batch;
     db_delivery :=
       {| rows := [delivery.make 1 "packed" "2024-05-06 09:00:00" None "truck"];
          seq := 1 |} |}.


(** ** The claims *)

(** C1 (code defect, POST /batch).  On the store right after
    [create_new_database], a valid POST /batch body makes [add_batch] insert
    and commit the row with the generated key 1, and then answer with a
    server error instead of the created entity: [Batch(Batch_ID=batch_id)]
    leaves the required fields RawWeight, InTimeRaw, Status and Centra_ID
    out.  (POST /package and POST /centra do return the created entity, see
    [add_package_creates] and [add_centra_creates].) *)
Theorem add_batch_commits_then_fails :
  serve (add_batch raw_batch) new_database
  = (Raise (ValidationError "Batch" "RawWeight"),
     {| db_batch_id := {| rows := [new_batch_row raw_batch 1]; seq := 1 |};
        db_centra := empty_table _;
        db_delivery := empty_table _ |})
  /\ status_code (fst (serve (add_batch raw_batch) new_database)) = 500.
Proof. split; reflexivity. Qed.

(** C2 (code defect, PUT /batch/{id}/status).  Batch 1 of this store exists
    and has no package, so the claim asks for 404 "Batch not found".  The
    handler tests the fetched row, not its Package_ID, for [None]: it goes
    on, updates no delivery row, answers 200 with the body and leaves the
    store as it is.  The sibling GET /batch/1/delivery does answer 404
    "Batch not found" for the same batch. *)
Theorem batch_without_package_is_not_404 :
  option_map batch_id.Package_ID (batch_with 1 one_batch) = Some None
  /\ serve (update_delivery_status 1 {| UpdateStatus.Status := "sent" |}) one_batch
     = (Ok {| UpdateStatus.Status := "sent" |}, one_batch)
  /\ status_code
       (fst (serve (update_delivery_status 1 {| UpdateStatus.Status := "sent" |})
                   one_batch)) <> 404
  /\ fst (serve (get_delivery_info 1) one_batch)
     = Raise (HTTPException 404 "Batch not found").
Proof. repeat split. cbn. discriminate. Qed.





Lemma deleted_rows_lack_key (R : Type) (key : R -> Z) (id : Z) (l : list R) (r : R) :
  In r (filter (fun r => negb (key r =? id)) l) -> key r <> id.
Proof.
  intros H. apply filter_In in H as [_ H].
  apply negb_true_iff in H. now apply Z.eqb_neq.
Qed.

Lemma batch_with_key (d : database) (id : Z) (b : batch_id.row) :
  batch_with id d = Some b -> batch_id.Batch_ID b = id.
Proof.
  intros H. apply first_match_in in H as [_ H]. now apply Z.eqb_eq.
Qed.

Lemma centra_with_key (d : database) (id : Z) (c : centra.row) :
  centra_with id d = Some c -> centra.Centra_ID c = id.
Proof.
  intros H. apply first_match_in in H as [_ H]. now apply Z.eqb_eq.
Qed.

Lemma package_with_key (d : database) (id : Z) (p : delivery.row) :
  package_with id d = Some p -> delivery.Package_ID p = id.
Proof.
  intros H. apply first_match_in in H as [_ H]. now apply Z.eqb_eq.
Qed.

(** C4, as stated, fails by the driver's range check: no row of this store
    has key 2^63, yet each DELETE of that key raises ([OverflowError],
    status 500) instead of answering 404. *)
Lemma delete_of_out_of_range_id_is_500 :
  batch_with (2 ^ 63) linked = None
  /\ centra_with (2 ^ 63) linked = None
  /\ package_with (2 ^ 63) linked = None
  /\ serve (delete_batch (2 ^ 63)) linked = (Raise overflow, linked)
  /\ serve (delete_centra (2 ^ 63)) linked = (Raise overflow, linked)
  /\ serve (delete_package (2 ^ 63)) linked = (Raise overflow, linked)
  /\ status_code (fst (serve (delete_batch (2 ^ 63)) linked)) = 500.
Proof. repeat split. Qed.

(** C4 (amended).  For a key in the signed 64-bit range, each delete handler
    answers 404 with the message of its resource, and changes nothing, when
    no row has the key.  Otherwise it answers with the columns of the row it
    fetched before deleting and removes the rows of that key, the rest of
    the store untouched; afterwards the listing of that resource holds no
    entry with the key, and deleting the same key again answers 404. *)
Theorem delete_returns_row_then_not_found (d : database) (id : Z) :
  in_int64 id = true ->
  (match centra_with id d with
   | None =>
       serve (delete_centra id) d
       = (Raise (HTTPException 404 "Centra not found"), d)
   | Some c =>
       let d' := with_centra_rows
                   (filter (fun r => negb (has_Centra_ID id r)) (rows (db_centra d))) d in
       serve (delete_centra id) d
       = (Ok {| Centra.Centra_ID := id;
                Centra.CentraName := centra.CentraName c;
                Centra.CentraAddress := centra.CentraAddress c;
                Centra.NumberOfEmployees := centra.NumberOfEmployees c |}, d')
       /\ (exists listing,
             fst (serve get_all_centra d') = Ok listing
             /\ Forall (fun x => Centra.Centra_ID x <> id) listing)
       /\ serve (delete_centra id) d'
          = (Raise (HTTPException 404 "Centra not found"), d')
   end)
  /\ (match package_with id d with
      | None =>
          serve (delete_package id) d
          = (Raise (HTTPException 404 "Package not found"), d)
      | Some p =>
          let d' := with_delivery_rows
                      (filter (fun r => negb (has_Package_ID id r))
                              (rows (db_delivery d))) d in
          serve (delete_package id) d
          = (Ok {| DeliveryInfo.Package_ID := id;
                   DeliveryInfo.Status := delivery.Status p;
                   DeliveryInfo.InDeliveryTime := delivery.InDeliveryTime p;
                   DeliveryInfo.ExpeditionType := delivery.ExpeditionType p |}, d')
          /\ (exists listing,
                fst (serve get_all_packages d') = Ok listing
                /\ Forall (fun x => DeliveryInfo.Package_ID x <> id) listing)
          /\ serve (delete_package id) d'
             = (Raise (HTTPException 404 "Package not found"), d')
      end)
  /\ (match batch_with id d with
      | None =>
          serve (delete_batch id) d
          = (Raise (HTTPException 404 "Batch not found"), d)
      | Some b =>
          let d' := with_batch_rows
                      (filter (fun r => negb (has_Batch_ID id r))
                              (rows (db_batch_id d))) d in
          serve (delete_batch id) d = (Ok (Batch_view b), d')
          /\ Batch.Batch_ID (Batch_view b) = id
          /\ (exists listing,
                fst (serve get_all_batches d') = Ok listing
                /\ Forall (fun x => Batch.Batch_ID x <> id) listing)
          /\ serve (delete_batch id) d'
             = (Raise (HTTPException 404 "Batch not found"), d')
      end).
Proof.
  intros Hid. repeat apply conj.
  - rewrite delete_centra_run, Hid.
    destruct (centra_with id d) as [c|] eqn:Hc; [|reflexivity].
    cbv zeta. repeat apply conj.
    + unfold Centra_of_row. now rewrite (centra_with_key _ _ Hc).
    + rewrite get_all_centra_run. eexists. split; [reflexivity|].
      cbn. rewrite Forall_map, Forall_forall. intros r Hr.
      exact (@deleted_rows_lack_key _ centra.Centra_ID id _ _ Hr).
    + rewrite delete_centra_run, Hid. unfold centra_with at 1. cbn.
      now rewrite filter_deleted.
  - rewrite delete_package_run, Hid.
    destruct (package_with id d) as [p|] eqn:Hp; [|reflexivity].
    cbv zeta. repeat apply conj.
    + unfold DeliveryInfo_of_row. now rewrite (package_with_key _ _ Hp).
    + rewrite get_all_packages_run. eexists. split; [reflexivity|].
      cbn. rewrite Forall_map, Forall_forall. intros r Hr.
      exact (@deleted_rows_lack_key _ delivery.Package_ID id _ _ Hr).
    + rewrite delete_package_run, Hid. unfold package_with at 1. cbn.
      now rewrite filter_deleted.
  - rewrite delete_batch_run, Hid.
    destruct (batch_with id d) as [b|] eqn:Hb; [|reflexivity].
    cbv zeta. repeat apply conj; [reflexivity| | |].
    + exact (batch_with_key _ _ Hb).
    + rewrite get_all_batches_run. eexists. split; [reflexivity|].
      cbn. rewrite Forall_map, Forall_forall. intros r Hr.
      exact (@deleted_rows_lack_key _ batch_id.Batch_ID id _ _ Hr).
    + rewrite delete_batch_run, Hid. unfold batch_with at 1. cbn.
      now rewrite filter_deleted.
Qed.

Lemma delete_returns_row_then_not_found_witness :
  in_int64 1 = true
  /\ fst (serve (delete_centra 1) linked)
     = Ok {| Centra.Centra_ID := 1; Centra.CentraName := "North";
             Centra.CentraAddress := "1 Mill Road";
             Centra.NumberOfEmployees := 12 |}
  /\ fst (serve (delete_package 1) linked)
     = Ok {| DeliveryInfo.Package_ID := 1; DeliveryInfo.Status := "packed";
             DeliveryInfo.InDeliveryTime := "2024-05-06 09:00:00";
             DeliveryInfo.ExpeditionType := "truck" |}
  /\ option_map (fun b => (Batch.Batch_ID b, Batch.RawWeight b, Batch.InTimeRaw b,
                           Batch.Status b, Batch.Centra_ID b, Batch.Package_ID b))
       (match fst (serve (delete_batch 1) linked) with
        | Ok b => Some b
        | Raise _ => None
        end)
     = Some (1, 120, "2024-05-01 08:30:00", "raw", 1, Some 1)
  /\ serve (delete_batch 9) linked = (Raise (HTTPException 404 "Batch not found"), linked).
Proof.
  pose proof (delete_returns_row_then_not_found linked 1 eq_refl) as (Hc & Hp & Hb).
  pose proof (delete_returns_row_then_not_found linked 9 eq_refl) as (_ & _ & H9).
  cbn in Hc, Hp, Hb.
  destruct Hc as (Hc & _), Hp as (Hp & _), Hb as (Hb & _).
  repeat apply conj.
  - reflexivity.
  - now rewrite Hc.
  - now rewrite Hp.
  - now rewrite Hb.
  - exact H9.
Defined.




(** C6, as stated, fails by the driver's range check: with WetWeight 2^63
    the PUT on the existing batch 1 raises ([OverflowError]) and writes
    nothing, and the GET afterwards does not answer with the written
    values. *)
Lemma stage_weight_out_of_range_is_not_written :
  let wet := {| AddWetWeight.InTimeWet := "2024-05-02 08:00:00";
                AddWetWeight.OutTimeWet := "2024-05-02 17:00:00";
                AddWetWeight.WetWeight := 2 ^ 63 |} in
  batch_with 1 one_batch <> None
  /\ serve (add_wet_weight 1 wet) one_batch = (Raise overflow, one_batch)
  /\ fst (serve (get_wet_weight 1) (snd (serve (add_wet_weight 1 wet) one_batch)))
     <> Ok {| WetWeight.WetWeight := 2 ^ 63;
              WetWeight.InTimeWet := "2024-05-02 08:00:00";
              WetWeight.OutTimeWet := "2024-05-02 17:00:00" |}.
Proof. repeat split; cbn; discriminate. Qed.

(** C6 (amended).  For a batch that exists and a weight in the signed 64-bit
    range, setting a stage with its PUT route and then reading it with the
    GET route of the same stage answers with exactly the weight, in-time and
    out-time that were written; this holds for the wet, the dry and the
    powder stage. *)
Theorem stage_written_is_stage_read (d : database) (id : Z)
    (wet : AddWetWeight.t) (dry : AddDryWeight.t) (powder : AddPowderWeight.t) :
  batch_with id d <> None ->
  in_int64 (AddWetWeight.WetWeight wet) = true ->
  in_int64 (AddDryWeight.DryWeight dry) = true ->
  in_int64 (AddPowderWeight.PowderWeight powder) = true ->
  fst (serve (get_wet_weight id) (snd (serve (add_wet_weight id wet) d)))
  = Ok {| WetWeight.WetWeight := AddWetWeight.WetWeight wet;
          WetWeight.InTimeWet := AddWetWeight.InTimeWet wet;
          WetWeight.OutTimeWet := AddWetWeight.OutTimeWet wet |}
  /\ fst (serve (get_dry_weight id) (snd (serve (add_dry_weight id dry) d)))
     = Ok {| DryWeight.DryWeight := AddDryWeight.DryWeight dry;
             DryWeight.InTimeDry := AddDryWeight.InTimeDry dry;
             DryWeight.OutTimeDry := AddDryWeight.OutTimeDry dry |}
  /\ fst (serve (get_powder_weight id) (snd (serve (add_powder_weight id powder) d)))
     = Ok {| PowderWeight.PowderWeight := AddPowderWeight.PowderWeight powder;
             PowderWeight.InTimePowder := AddPowderWeight.InTimePowder powder;
             PowderWeight.OutTimePowder := AddPowderWeight.OutTimePowder powder |}.
Proof.
  intros Hb Hw Hd Hp.
  destruct (batch_with id d) as [b|] eqn:E; [clear Hb|congruence].
  pose proof (batch_with_in_range _ _ E) as Hid.
  unfold batch_with in E.
  repeat apply conj.
  - rewrite add_wet_weight_run, Hw, Hid, get_wet_weight_run, Hid.
    unfold batch_with. cbn.
    rewrite first_updated by (intros r; reflexivity). rewrite E. cbn.
    unfold batch_id.WetWeight. cbn. now rewrite (val_stored _ Hw).
  - rewrite add_dry_weight_run, Hd, Hid, get_dry_weight_run, Hid.
    unfold batch_with. cbn.
    rewrite first_updated by (intros r; reflexivity). rewrite E. cbn.
    unfold batch_id.DryWeight. cbn. now rewrite (val_stored _ Hd).
  - rewrite add_powder_weight_run, Hp, Hid, get_powder_weight_run, Hid.
    unfold batch_with. cbn.
    rewrite first_updated by (intros r; reflexivity). rewrite E. cbn.
    unfold batch_id.PowderWeight. cbn. now rewrite (val_stored _ Hp).
Qed.

Lemma stage_written_is_stage_read_witness :
  let wet := {| AddWetWeight.InTimeWet := "2024-05-02 08:00:00";
                AddWetWeight.OutTimeWet := "2024-05-02 17:00:00";
                AddWetWeight.WetWeight := 50 |} in
  let dry := {| AddDryWeight.InTimeDry := "2024-05-03 08:00:00";
                AddDryWeight.OutTimeDry := "2024-05-03 17:00:00";
                AddDryWeight.DryWeight := 30 |} in
  let powder := {| AddPowderWeight.InTimePowder := "2024-05-04 08:00:00";
                   AddPowderWeight.OutTimePowder := "2024-05-04 17:00:00";
                   AddPowderWeight.PowderWeight := 20 |} in
  batch_with 1 one_batch <> None
  /\ fst (serve (get_wet_weight 1) (snd (serve (add_wet_weight 1 wet) one_batch)))
     = Ok {| WetWeight.WetWeight := 50;
             WetWeight.InTimeWet := "2024-05-02 08:00:00";
             WetWeight.OutTimeWet := "2024-05-02 17:00:00" |}
  /\ fst (serve (get_dry_weight 1) (snd (serve (add_dry_weight 1 dry) one_batch)))
     = Ok {| DryWeight.DryWeight := 30;
             DryWeight.InTimeDry := "2024-05-03 08:00:00";
             DryWeight.OutTimeDry := "2024-05-03 17:00:00" |}
  /\ fst (serve (get_powder_weight 1)
                (snd (serve (add_powder_weight 1 powder) one_batch)))
     = Ok {| PowderWeight.PowderWeight := 20;
             PowderWeight.InTimePowder := "2024-05-04 08:00:00";
             PowderWeight.OutTimePowder := "2024-05-04 17:00:00" |}.
Proof.
  intros wet dry powder.
  assert (H : batch_with 1 one_batch <> None) by (cbn; discriminate).
  split; [exact H|].
  exact (stage_written_is_stage_read one_batch 1 wet dry powder H eq_refl eq_refl eq_refl).
Defined.

(** ** The instant a stored timestamp denotes *)

Definition digit (c : ascii) : option Z :=
  let n := Z.of_N (N_of_ascii c) - 48 in
  if (0 <=? n) && (n <=? 9) then Some n else None.

Fixpoint number_from (acc : Z) (s : string) : option Z :=
  match s with
  | EmptyString => Some acc
  | String c s' =>
      match digit c with
      | Some n => number_from (10 * acc + n) s'
      | None => None
      end
  end.

(** The decimal number written in the [len] characters of [s] from
    [start]. *)
Definition field (start len : nat) (s : string) : option Z :=
  let t := substring start len s in
  if Nat.eqb (String.length t) len then number_from 0 t else None.




Definition batch_at (id centra_id : Z) (t : datetime) : batch_id.row :=
  new_batch_row {| NewBatch.RawWeight := 100 + id; NewBatch.Status := "raw";
                   NewBatch.Centra_ID := centra_id; NewBatch.InTimeRaw := t |} id.

(** Eight batches of centra 1 and one of centra 2, in arrival order: the
    listing keeps the seven latest of centra 1, latest first. *)
Definition nine_batches : database :=
  {| db_batch_id :=
       {| rows := [batch_at 1 1 "2024-05-01 08:00:00"; batch_at 2 1 "2024-05-03 08:00:00";
                   batch_at 3 2 "2024-05-09 08:00:00"; batch_at 4 1 "2024-05-02 08:00:00";
                   batch_at 5 1 "2024-05-08 08:00:00"; batch_at 6 1 "2024-05-04 08:00:00";
                   batch_at 7 1 "2024-05-07 08:00:00"; batch_at 8 1 "2024-05-05 08:00:00";
                   batch_at 9 1 "2024-05-06 08:00:00"];
          seq := 9 |};
     db_centra := db_centra one_batch;
     db_delivery := empty_table _ |}.


Definition listed_ids (r : result (list WeightInfo.t)) : option (list Z) :=
  match r with
  | Ok l => Some (map WeightInfo.Batch_ID l)
  | Raise _ => None
  end.

Example last_seven_of_eight :
  listed_ids (fst (serve (get_last_seven_batches_weights 1) nine_batches))
  = Some [5; 7; 9; 8; 6; 2; 4].
Proof. reflexivity. Qed.









(** C9 (code defect, GET /centra/{id}/batches).  Centra 1 has one batch in
    this store, so the reply should be one record carrying Batch_ID 1; the
    handler raises instead, because [Batch(Batch_ID=...)] leaves the required
    fields RawWeight, InTimeRaw, Status and Centra_ID out.  The store is not
    changed. *)
Theorem batches_of_centra_raises :
  map batch_id.Batch_ID
      (filter (fun b => batch_id.Centra_ID b =? 1) (rows (db_batch_id one_batch)))
  = [1]
  /\ serve (get_all_batches_from_centra 1) one_batch
     = (Raise (ValidationError "Batch" "RawWeight"), one_batch)
  /\ status_code (fst (serve (get_all_batches_from_centra 1) one_batch)) = 500.
Proof. repeat split. Qed.

(** The status a reply of the partial centra update can have. *)
Lemma update_centra_outcome (d : database) (id : Z) (body : UpdateCentra.t) :
  (status_code (fst (serve (update_centra id body) d)) = 404
   /\ snd (serve (update_centra id body) d) = d)
  \/ status_code (fst (serve (update_centra id body) d)) = 500
     /\ snd (serve (update_centra id body) d) = d
  \/ status_code (fst (serve (update_centra id body) d)) = 200
     /\ snd (serve (update_centra id body) d)
        = with_centra_rows
            (updated (has_Centra_ID id) (merged body) (rows (db_centra d))) d.
Proof.
  destruct (in_int64 id) eqn:Hid.
  - destruct (centra_with id d) as [c|] eqn:Hc.
    + destruct (has_null body) eqn:Hn.
      * destruct (@update_centra_null d id body c Hc Hn) as [msg ->]. right. left.
        now split.
      * destruct (employees_fit body) eqn:Hf.
        -- rewrite (@update_centra_applies d id body c Hc Hn Hf). right. right.
           now split.
        -- rewrite (@update_centra_too_large d id body c Hc Hn Hf). right. left.
           now split.
    + rewrite (@update_centra_missing d id body Hid Hc). left. now split.
  - rewrite (@update_centra_overflow d id body Hid). right. left. now split.
Qed.

(** C10.  Whatever the request, a reply with status 404 leaves the store
    exactly as it was before the request. *)
Theorem not_found_changes_nothing (req : request) (d : database) :
  fst (app req d) = 404 -> snd (app req d) = d.
Proof.
  destruct req; unfold app, answer; cbn [fst snd].
  - now rewrite get_all_batches_run.
  - now rewrite get_raw_weight_run.
  - now rewrite get_wet_weight_run.
  - now rewrite get_dry_weight_run.
  - now rewrite get_powder_weight_run.
  - intros _. apply get_delivery_info_reads.
  - now rewrite get_all_packages_run.
  - rewrite update_package_status_run. destruct (in_int64 _); cbn; [discriminate|easy].
  - rewrite update_delivery_status_run. destruct (in_int64 _); [|easy].
    destruct (batch_with batch_id d); cbn; [discriminate | reflexivity].
  - now rewrite update_outdelivery_run.
  - rewrite update_batches_status_run. destruct (forallb _ _); cbn; [discriminate|easy].
  - now rewrite get_last_seven_batches_weights_run.
  - now rewrite get_all_batches_from_centra_run.
  - rewrite add_wet_weight_run. destruct (_ && _); cbn; [discriminate|easy].
  - rewrite add_dry_weight_run. destruct (_ && _); cbn; [discriminate|easy].
  - rewrite add_powder_weight_run. destruct (_ && _); cbn; [discriminate|easy].
  - rewrite add_batch_run. destruct (_ && _); [|easy].
    destruct (in_int64 _); cbn; [discriminate|easy].
  - rewrite add_package_run. destruct (in_int64 _); cbn; [discriminate|easy].
  - rewrite update_package_id_run. destruct (_ && _); cbn; [discriminate|easy].
  - now rewrite get_all_centra_run.
  - destruct (update_centra_outcome d centra_id centra) as [[_ H]|[[_ H]|[E _]]];
      [intros _; exact H | intros _; exact H | rewrite E; discriminate].
  - rewrite delete_centra_run. destruct (in_int64 _); [|easy].
    destruct (centra_with centra_id d); cbn; [discriminate | reflexivity].
  - rewrite delete_package_run. destruct (in_int64 _); [|easy].
    destruct (package_with package_id d); cbn; [discriminate | reflexivity].
  - rewrite delete_batch_run. destruct (in_int64 _); [|easy].
    destruct (batch_with batch_id d); cbn; [discriminate | reflexivity].
  - rewrite add_centra_run. destruct (in_int64 _); [|easy].
    destruct (in_int64 _); cbn; [discriminate|easy].
Qed.

Lemma not_found_changes_nothing_witness :
  fst (app (DELETE_batch 7) one_batch) = 404
  /\ snd (app (DELETE_batch 7) one_batch) = one_batch
  /\ snd (app (PUT_centra 2 empty_body) one_batch) = one_batch
  /\ snd (app (PUT_batch_status 7 {| UpdateStatus.Status := "sent" |}) one_batch)
     = one_batch
  /\ snd (app (DELETE_package 1) one_batch) = one_batch.
Proof.
  repeat apply conj.
  - reflexivity.
  - apply (not_found_changes_nothing (DELETE_batch 7) one_batch). reflexivity.
  - apply (not_found_changes_nothing (PUT_centra 2 empty_body) one_batch). reflexivity.
  - apply (not_found_changes_nothing
             (PUT_batch_status 7 {| UpdateStatus.Status := "sent" |}) one_batch).
    reflexivity.
  - apply (not_found_changes_nothing (DELETE_package 1) one_batch). reflexivity.
Defined.

(** * Further properties of the handlers *)

(** ** How one request changes a table *)

Inductive table_step (R : Type) (key : R -> Z) (t : table R) : table R -> Prop :=
| step_same : table_step key t t
| step_update (cond : R -> bool) (f : R -> R) :
    (forall r, key (f r) = key r) ->
    table_step key t {| rows := updated cond f (rows t); seq := seq t |}
| step_delete (cond : R -> bool) :
    table_step key t {| rows := filter cond (rows t); seq := seq t |}
| step_insert (values : Z -> R) :
    key (values (next_key key t)) = next_key key t ->
    table_step key t (inserted key values t).

Ltac table_steps :=
  cbn;
  repeat apply conj;
  first [ apply step_same
        | apply step_update; intros; reflexivity
        | apply step_delete
        | apply step_insert; apply val_stored; assumption ].

Lemma app_table_steps (req : request) (d : database) :
  table_step batch_id.Batch_ID (db_batch_id d) (db_batch_id (snd (app req d)))
  /\ table_step centra.Centra_ID (db_centra d) (db_centra (snd (app req d)))
  /\ table_step delivery.Package_ID (db_delivery d) (db_delivery (snd (app req d))).
Proof.
  destruct req; unfold app, answer; cbn [fst snd].
  - rewrite get_all_batches_run. table_steps.
  - rewrite get_raw_weight_run. table_steps.
  - rewrite get_wet_weight_run. table_steps.
  - rewrite get_dry_weight_run. table_steps.
  - rewrite get_powder_weight_run. table_steps.
  - rewrite get_delivery_info_reads. table_steps.
  - rewrite get_all_packages_run. table_steps.
  - rewrite update_package_status_run. destruct (in_int64 _); table_steps.
  - rewrite update_delivery_status_run. destruct (in_int64 _); [|table_steps].
    destruct (batch_with batch_id d); table_steps.
  - rewrite update_outdelivery_run. table_steps.
  - rewrite update_batches_status_run. destruct (forallb _ _); table_steps.
  - rewrite get_last_seven_batches_weights_run. table_steps.
  - rewrite get_all_batches_from_centra_run. table_steps.
  - rewrite add_wet_weight_run. destruct (_ && _); table_steps.
  - rewrite add_dry_weight_run. destruct (_ && _); table_steps.
  - rewrite add_powder_weight_run. destruct (_ && _); table_steps.
  - rewrite add_batch_run. destruct (_ && _); [|table_steps].
    destruct (in_int64 (next_key _ _)) eqn:Hk; table_steps.
  - rewrite add_package_run.
    destruct (in_int64 (next_key _ _)) eqn:Hk; table_steps.
  - rewrite update_package_id_run. destruct (_ && _); table_steps.
  - rewrite get_all_centra_run. table_steps.
  - destruct (update_centra_outcome d centra_id centra) as [[_ H]|[[_ H]|[_ H]]];
      rewrite H; [table_steps | table_steps |].
    cbn. repeat apply conj; [apply step_same | | apply step_same].
    apply step_update. intros r. reflexivity.
  - rewrite delete_centra_run. destruct (in_int64 _); [|table_steps].
    destruct (centra_with centra_id d); table_steps.
  - rewrite delete_package_run. destruct (in_int64 _); [|table_steps].
    destruct (package_with package_id d); table_steps.
  - rewrite delete_batch_run. destruct (in_int64 _); [|table_steps].
    destruct (batch_with batch_id d); table_steps.
  - rewrite add_centra_run. destruct (in_int64 _); [|table_steps].
    destruct (in_int64 (next_key _ _)) eqn:Hk; table_steps.
Qed.

(** ** Primary keys *)

(** No two rows share a key, and the counter is at least every key. *)
Definition table_ok (R : Type) (key : R -> Z) (t : table R) : Prop :=
  NoDup (map key (rows t)) /\ Forall (fun r => key r <= seq t) (rows t).

Definition store_ok (d : database) : Prop :=
  table_ok batch_id.Batch_ID (db_batch_id d)
  /\ table_ok centra.Centra_ID (db_centra d)
  /\ table_ok delivery.Package_ID (db_delivery d).

Section Keys.
Variable R : Type.
Variable key : R -> Z.

Lemma keys_updated (cond : R -> bool) (f : R -> R) (l : list R) :
  (forall r, key (f r) = key r) -> map key (updated cond f l) = map key l.
Proof.
  intros Hf. unfold updated. rewrite map_map. apply map_ext.
  intros r. now destruct (cond r).
Qed.

Lemma keys_filter_nodup (cond : R -> bool) (l : list R) :
  NoDup (map key l) -> NoDup (map key (filter cond l)).
Proof.
  induction l as [|r l IH]; simpl; [constructor|].
  intros H. apply NoDup_cons_iff in H as [Hr Hl].
  destruct (cond r); simpl; [|now apply IH].
  constructor; [|now apply IH].
  intros Hin. apply Hr. apply in_map_iff in Hin as (x & Hx & Hin).
  apply in_map_iff. exists x. split; [exact Hx|].
  now apply filter_In in Hin.
Qed.

Lemma seq_below_next (t : table R) : seq t < next_key key t.
Proof. unfold next_key. lia. Qed.

Lemma table_step_ok (t t' : table R) :
  table_step key t t' -> table_ok key t -> table_ok key t'.
Proof.
  intros Hstep [Hnd Hb]. destruct Hstep as [|cond f Hf|cond|values Hv]; cbn.
  - now split.
  - split; cbn.
    + now rewrite keys_updated.
    + unfold updated. rewrite Forall_map. eapply Forall_impl; [|exact Hb].
      intros r Hr. cbn in Hr. destruct (cond r); [now rewrite Hf | exact Hr].
  - split; cbn.
    + now apply keys_filter_nodup.
    + rewrite Forall_forall in *. intros r Hr. apply filter_In in Hr. now apply Hb.
  - split; cbn.
    + rewrite map_app. cbn. rewrite Hv.
      apply NoDup_app; [exact Hnd | repeat constructor; intros [] |].
      intros k Hk [<-|[]]. apply in_map_iff in Hk as (r & Hr & Hin).
      apply (next_key_fresh key) in Hin. lia.
    + apply Forall_app. split.
      * rewrite Forall_forall. intros r Hr.
        apply (next_key_fresh key) in Hr. lia.
      * repeat constructor. rewrite Hv. lia.
Qed.

Lemma table_step_seq (t t' : table R) : table_step key t t' -> seq t <= seq t'.
Proof.
  intros [|cond f Hf|cond|values Hv]; cbn; try lia.
  pose proof (seq_below_next t). lia.
Qed.
End Keys.

(** The requests served one after the other. *)
Definition replay (reqs : list request) (d : database) : database :=
  fold_left (fun d req => snd (app req d)) reqs d.

Lemma new_database_ok : store_ok new_database.
Proof. repeat split; constructor. Qed.

Lemma app_store_ok (req : request) (d : database) :
  store_ok d -> store_ok (snd (app req d)).
Proof.
  intros (Hb & Hc & Hp).
  destruct (app_table_steps req d) as (Sb & Sc & Sp).
  repeat apply conj.
  - exact (proj1 (table_step_ok Sb Hb)).
  - exact (proj2 (table_step_ok Sb Hb)).
  - exact (proj1 (table_step_ok Sc Hc)).
  - exact (proj2 (table_step_ok Sc Hc)).
  - exact (proj1 (table_step_ok Sp Hp)).
  - exact (proj2 (table_step_ok Sp Hp)).
Qed.

Lemma replay_ok (reqs : list request) (d : database) :
  store_ok d -> store_ok (replay reqs d).
Proof.
  revert d. induction reqs as [|req reqs IH]; intros d H; [exact H|].
  change (replay (req :: reqs) d) with (replay reqs (snd (app req d))).
  apply IH. now apply app_store_ok.
Qed.

Lemma replay_seq (reqs : list request) (d : database) :
  seq (db_batch_id d) <= seq (db_batch_id (replay reqs d))
  /\ seq (db_centra d) <= seq (db_centra (replay reqs d))
  /\ seq (db_delivery d) <= seq (db_delivery (replay reqs d)).
Proof.
  revert d. induction reqs as [|req reqs IH]; intros d; [unfold replay; cbn; lia|].
  change (replay (req :: reqs) d) with (replay reqs (snd (app req d))).
  destruct (IH (snd (app req d))) as (Ib & Ic & Ip).
  destruct (app_table_steps req d) as (Sb & Sc & Sp).
  apply table_step_seq in Sb, Sc, Sp. lia.
Qed.

(** X3.  Whatever the requests served, in whatever order, a store whose
    tables have no duplicate key and whose counters bound the keys is left
    in such a state; the store right after [create_new_database] is one. *)
Theorem requests_keep_keys_unique (reqs : list request) (d : database) :
  store_ok d -> store_ok (replay reqs d).
Proof. apply replay_ok. Qed.

Lemma requests_keep_keys_unique_witness :
  store_ok new_database
  /\ store_ok (replay [POST_centra {| NewCentra.CentraName := "North";
                                      NewCentra.CentraAddress := "1 Mill Road";
                                      NewCentra.NumberOfEmployees := 12 |};
                       POST_batch raw_batch; DELETE_batch 1; POST_batch raw_batch]
                      new_database).
Proof.
  split; [exact new_database_ok|].
  exact (requests_keep_keys_unique _ new_database_ok).
Defined.

(** X4.  Keys are not handed out twice: in a store whose counters bound the
    keys, every key a table holds is below the key the next INSERT into that
    table gets, however many requests (deletions included) are served in
    between. *)
Theorem keys_are_never_reused (reqs : list request) (d : database) :
  store_ok d ->
  Forall (fun b => batch_id.Batch_ID b
                   < next_key batch_id.Batch_ID (db_batch_id (replay reqs d)))
         (rows (db_batch_id d))
  /\ Forall (fun c => centra.Centra_ID c
                      < next_key centra.Centra_ID (db_centra (replay reqs d)))
            (rows (db_centra d))
  /\ Forall (fun p => delivery.Package_ID p
                      < next_key delivery.Package_ID (db_delivery (replay reqs d)))
            (rows (db_delivery d)).
Proof.
  intros ((_ & Hb) & (_ & Hc) & (_ & Hp)).
  destruct (replay_seq reqs d) as (Sb & Sc & Sp).
  pose proof (seq_below_next batch_id.Batch_ID (db_batch_id (replay reqs d))).
  pose proof (seq_below_next centra.Centra_ID (db_centra (replay reqs d))).
  pose proof (seq_below_next delivery.Package_ID (db_delivery (replay reqs d))).
  repeat apply conj.
  - eapply Forall_impl; [|exact Hb]. cbn. intros; lia.
  - eapply Forall_impl; [|exact Hc]. cbn. intros; lia.
  - eapply Forall_impl; [|exact Hp]. cbn. intros; lia.
Qed.

Lemma keys_are_never_reused_witness :
  store_ok one_batch
  /\ next_key batch_id.Batch_ID
       (db_batch_id (replay [DELETE_batch 1] one_batch)) = 2
  /\ Forall (fun b => batch_id.Batch_ID b
                      < next_key batch_id.Batch_ID
                          (db_batch_id (replay [DELETE_batch 1] one_batch)))
            (rows (db_batch_id one_batch)).
Proof.
  assert (H : store_ok one_batch).
  { unfold store_ok, table_ok. cbn [one_batch db_batch_id db_centra db_delivery rows
                                     seq empty_table map].
    repeat apply conj.
    all: try (repeat constructor; fail).
    all: constructor; [|constructor].
    all: first [ vm_compute; discriminate | intros [] ]. }
  split; [exact H|]. split; [reflexivity|].
  exact (proj1 (keys_are_never_reused [DELETE_batch 1] H)).
Defined.

(** ** Routes that never succeed, routes that never write *)

(** X1.  PUT /batch/{id}/outdelivery never succeeds: for every store, key and
    body its UPDATE is refused when prepared (table delivery has no column
    WeightRescale), the reply is a server error and nothing is written. *)
Theorem outdelivery_never_succeeds (d : database) (id : Z) (outdelivery : OutDelivery.t) :
  fst (serve (update_outdelivery id outdelivery) d)
  = Raise (OperationalError "no such column: WeightRescale")
  /\ app (PUT_batch_outdelivery id outdelivery) d = (500, d)
  /\ known delivery.columns "WeightRescale" = false
  /\ known batch_id.columns "WeightRescale" = true.
Proof. repeat split. Qed.

Definition is_GET (req : request) : bool :=
  match req with
  | GET_batches | GET_batch_raw _ | GET_batch_wet _ | GET_batch_dry _
  | GET_batch_powder _ | GET_batch_delivery _ | GET_packages
  | GET_centra_batches_weights _ | GET_centra_batches _ | GET_centra => true
  | _ => false
  end.

(** X2.  A GET request never changes the store, whatever it answers. *)
Theorem get_routes_only_read (req : request) (d : database) :
  is_GET req = true -> snd (app req d) = d.
Proof.
  destruct req; intros H; try discriminate H; unfold app, answer; cbn [fst snd].
  - now rewrite get_all_batches_run.
  - now rewrite get_raw_weight_run.
  - now rewrite get_wet_weight_run.
  - now rewrite get_dry_weight_run.
  - now rewrite get_powder_weight_run.
  - apply get_delivery_info_reads.
  - now rewrite get_all_packages_run.
  - now rewrite get_last_seven_batches_weights_run.
  - now rewrite get_all_batches_from_centra_run.
  - now rewrite get_all_centra_run.
Qed.

Lemma get_routes_only_read_witness :
  is_GET (GET_batch_wet 1) = true
  /\ fst (app (GET_batch_wet 1) one_batch) = 500
  /\ snd (app (GET_batch_wet 1) one_batch) = one_batch.
Proof.
  repeat apply conj; [reflexivity | reflexivity |].
  apply (get_routes_only_read (GET_batch_wet 1) one_batch). reflexivity.
Defined.

(** X5.  For a key in the signed 64-bit range, GET /centra/{id}/batches
    answers 200 exactly when no batch row has that Centra_ID, and then with
    the empty list; as soon as the centra has a batch the reply is a server
    error.  A key outside that range cannot be bound to the statement: no
    batch row carries it, and the reply is a server error all the same. *)
Theorem batches_of_centra_only_when_none (d : database) (centra_id : Z) :
  let of_centra :=
    filter (fun b => batch_id.Centra_ID b =? centra_id) (rows (db_batch_id d)) in
  (in_int64 centra_id = true ->
   (of_centra = [] ->
    serve (get_all_batches_from_centra centra_id) d = (Ok [], d))
   /\ (of_centra <> [] ->
       serve (get_all_batches_from_centra centra_id) d
       = (Raise (ValidationError "Batch" "RawWeight"), d))
   /\ (status_code (fst (serve (get_all_batches_from_centra centra_id) d)) = 200
       <-> of_centra = []))
  /\ (in_int64 centra_id = false ->
      of_centra = []
      /\ serve (get_all_batches_from_centra centra_id) d = (Raise overflow, d)
      /\ status_code (fst (serve (get_all_batches_from_centra centra_id) d)) = 500).
Proof.
  intros of_centra. rewrite get_all_batches_from_centra_run. fold of_centra.
  split; intros Hid; rewrite Hid.
  - destruct of_centra as [|b l]; repeat split; try congruence; try discriminate.
  - repeat split.
    exact (out_of_range_unmatched batch_id.Centra_ID_64 centra_id
                                  (rows (db_batch_id d)) Hid).
Qed.

Lemma batches_of_centra_only_when_none_witness :
  serve (get_all_batches_from_centra 2) one_batch = (Ok [], one_batch)
  /\ serve (get_all_batches_from_centra 1) one_batch
     = (Raise (ValidationError "Batch" "RawWeight"), one_batch)
  /\ serve (get_all_batches_from_centra (2 ^ 63)) one_batch
     = (Raise overflow, one_batch).
Proof.
  destruct (batches_of_centra_only_when_none one_batch 2) as (H2 & _).
  destruct (batches_of_centra_only_when_none one_batch 1) as (H1 & _).
  destruct (batches_of_centra_only_when_none one_batch (2 ^ 63)) as (_ & H3).
  repeat apply conj.
  - apply (proj1 (H2 eq_refl)). reflexivity.
  - apply (proj1 (proj2 (H1 eq_refl))). vm_compute. discriminate.
  - apply (proj1 (proj2 (H3 eq_refl))).
Defined.

(** ** Creating, listing, deleting *)














(** ** The delivery record of a batch *)

Unset Implicit Arguments.

Lemma unique_key_one_match (R : Type) (key : R -> Z) (id : Z) (l : list R) (r : R) :
  NoDup (map key l) ->
  hd_error (filter (fun x => key x =? id) l) = Some r ->
  filter (fun x => key x =? id) l = [r].
Proof.
  induction l as [|x l IH]; simpl; [discriminate|].
  intros Hnd. apply NoDup_cons_iff in Hnd as [Hx Hl].
  destruct (key x =? id) eqn:E.
  - intros [= ->]. f_equal.
    apply Z.eqb_eq in E.
    destruct (filter (fun x => key x =? id) l) as [|y l'] eqn:F; [reflexivity|].
    exfalso. apply Hx.
    assert (Hy : In y (filter (fun x => key x =? id) l)) by (rewrite F; now left).
    apply filter_In in Hy as [Hin Hk]. apply Z.eqb_eq in Hk.
    apply in_map_iff. exists y. split; [congruence | exact Hin].
  - now apply IH.
Qed.

Lemma joined_first (d : database) (id p : Z) (b : batch_id.row) :
  batch_with id d = Some b ->
  batch_id.Package_ID b = Some p ->
  package_with p d <> None ->
  hd_error (joined id d) = package_with p d.
Proof.
  unfold batch_with, package_with, joined. intros Hb Hp Hrow.
  destruct (filter (has_Batch_ID id) (rows (db_batch_id d))) as [|b' l];
    [discriminate|].
  cbn in Hb. injection Hb as ->. cbn [flat_map]. rewrite Hp. cbn [eq_param].
  change (fun p0 : delivery.row => delivery.Package_ID p0 =? p) with (has_Package_ID p).
  destruct (filter (has_Package_ID p) (rows (db_delivery d)));
    [now contradiction Hrow | reflexivity].
Qed.

(** What the join of GET /batch/{id}/delivery finds. *)
Lemma joined_cases (d : database) (id : Z) :
  (in_int64 id = true ->
   batch_with id d = None ->
   fst (serve (get_delivery_info id) d) = Raise (HTTPException 404 "Batch not found"))
  /\ (forall b p row,
        batch_with id d = Some b ->
        batch_id.Package_ID b = Some p ->
        package_with p d = Some row ->
        fst (serve (get_delivery_info id) d) = Ok (DeliveryInfo_of_row row))
  /\ (forall b,
        NoDup (map batch_id.Batch_ID (rows (db_batch_id d))) ->
        batch_with id d = Some b ->
        match batch_id.Package_ID b with
        | None => True
        | Some p => package_with p d = None
        end ->
        fst (serve (get_delivery_info id) d)
        = Raise (HTTPException 404 "Batch not found")).
Proof.
  repeat apply conj.
  - intros Hid H. rewrite get_delivery_info_run, Hid. unfold joined.
    unfold batch_with in H. apply hd_error_filter_none in H. now rewrite H.
  - intros b p row Hb Hp Hrow. rewrite get_delivery_info_run.
    rewrite (@batch_with_in_range _ _ _ Hb). cbn [fst].
    rewrite (joined_first d id p b Hb Hp) by congruence. now rewrite Hrow.
  - intros b Hnd Hb Hp. rewrite get_delivery_info_run.
    rewrite (@batch_with_in_range _ _ _ Hb). cbn [fst]. unfold joined.
    unfold batch_with in Hb. unfold has_Batch_ID in *.
    rewrite (unique_key_one_match _ batch_id.Batch_ID id _ _ Hnd Hb). cbn [flat_map].
    rewrite app_nil_r.
    destruct (batch_id.Package_ID b) as [p|]; cbn [eq_param].
    + unfold package_with in Hp. apply hd_error_filter_none in Hp.
      unfold has_Package_ID in Hp. now rewrite Hp.
    + assert (E : filter (fun _ : delivery.row => false) (rows (db_delivery d)) = [])
        by (induction (rows (db_delivery d)); auto).
      now rewrite E.
Qed.

(** X8.  For a key in the signed 64-bit range, GET /batch/{id}/delivery
    answers 404 "Batch not found" when no batch row has the key.  When the
    batch is linked to a package that exists, it answers with that package's
    key and the Status, InDeliveryTime and ExpeditionType stored in the
    package's row.  With batch keys unique, it also answers 404 when the
    batch has no package or its package has no row.  A key outside the range
    is refused by the driver: the reply is a server error. *)
Theorem delivery_of_batch (d : database) (id : Z) :
  (in_int64 id = true ->
   batch_with id d = None ->
   fst (serve (get_delivery_info id) d) = Raise (HTTPException 404 "Batch not found"))
  /\ (forall b p row,
        batch_with id d = Some b ->
        batch_id.Package_ID b = Some p ->
        package_with p d = Some row ->
        fst (serve (get_delivery_info id) d)
        = Ok {| DeliveryInfo.Package_ID := p;
                DeliveryInfo.Status := delivery.Status row;
                DeliveryInfo.InDeliveryTime := delivery.InDeliveryTime row;
                DeliveryInfo.ExpeditionType := delivery.ExpeditionType row |})
  /\ (forall b,
        NoDup (map batch_id.Batch_ID (rows (db_batch_id d))) ->
        batch_with id d = Some b ->
        match batch_id.Package_ID b with
        | None => True
        | Some p => package_with p d = None
        end ->
        fst (serve (get_delivery_info id) d)
        = Raise (HTTPException 404 "Batch not found"))
  /\ (in_int64 id = false ->
      fst (serve (get_delivery_info id) d) = Raise overflow
      /\ status_code (fst (serve (get_delivery_info id) d)) = 500).
Proof.
  destruct (joined_cases d id) as (H1 & H2 & H3).
  repeat apply conj.
  - exact H1.
  - intros b p row Hb Hp Hrow. rewrite (H2 b p row Hb Hp Hrow).
    unfold DeliveryInfo_of_row. now rewrite (@package_with_key _ _ _ Hrow).
  - exact H3.
  - intros Hid. now rewrite get_delivery_info_run, Hid.
Qed.

Lemma linked_keys_unique : NoDup (map batch_id.Batch_ID (rows (db_batch_id linked))).
Proof.
  cbn [linked db_batch_id rows map].
  constructor; [|constructor; [intros [] | constructor]].
  intros [H|[]]. vm_compute in H. discriminate H.
Qed.

Lemma delivery_of_batch_witness :
  fst (serve (get_delivery_info 9) linked) = Raise (HTTPException 404 "Batch not found")
  /\ fst (serve (get_delivery_info 1) linked)
     = Ok {| DeliveryInfo.Package_ID := 1; DeliveryInfo.Status := "packed";
             DeliveryInfo.InDeliveryTime := "2024-05-06 09:00:00";
             DeliveryInfo.ExpeditionType := "truck" |}
  /\ fst (serve (get_delivery_info 2) linked)
     = Raise (HTTPException 404 "Batch not found")
  /\ fst (serve (get_delivery_info (- 2 ^ 63 - 1)) linked) = Raise overflow.
Proof.
  repeat apply conj.
  - apply (proj1 (delivery_of_batch linked 9)); reflexivity.
  - destruct (delivery_of_batch linked 1) as (_ & H & _).
    exact (H (batch_id.set_Package_ID 1 (new_batch_row raw_batch 1)) 1
             (delivery.make 1 "packed" "2024-05-06 09:00:00" None "truck")
             eq_refl eq_refl eq_refl).
  - destruct (delivery_of_batch linked 2) as (_ & _ & H & _).
    apply (H (new_batch_row raw_batch 2)); [|reflexivity|exact I].
    exact linked_keys_unique.
  - destruct (delivery_of_batch linked (- 2 ^ 63 - 1)) as (_ & _ & _ & H).
    exact (proj1 (H eq_refl)).
Defined.

Lemma first_updated_other (R : Type) (cond other : R -> bool) (f : R -> R)
    (l : list R) :
  (forall r, other (f r) = other r) ->
  hd_error (filter other (updated cond f l))
  = option_map (fun r => if cond r then f r else r) (hd_error (filter other l)).
Proof.
  intros Hf. unfold updated.
  induction l as [|r l IH]; simpl; [reflexivity|].
  assert (E : other (if cond r then f r else r) = other r)
    by (destruct (cond r); [apply Hf | reflexivity]).
  rewrite E. destruct (other r); [reflexivity | exact IH].
Qed.





(** ** Updates seen through the reading routes *)



(** X12.  After DELETE /batch/{id} with a key in the signed 64-bit range,
    whatever it answered, every route that addresses the batch by that key
    answers 404 "Batch not found": the four stage reads, the delivery read,
    the delivery status update and a second delete. *)
Theorem deleted_batch_is_gone (d : database) (id : Z) (status : UpdateStatus.t) :
  in_int64 id = true ->
  let d' := snd (serve (delete_batch id) d) in
  let gone := HTTPException 404 "Batch not found" in
  fst (serve (get_raw_weight id) d') = Raise gone
  /\ fst (serve (get_wet_weight id) d') = Raise gone
  /\ fst (serve (get_dry_weight id) d') = Raise gone
  /\ fst (serve (get_powder_weight id) d') = Raise gone
  /\ fst (serve (get_delivery_info id) d') = Raise gone
  /\ serve (update_delivery_status id status) d' = (Raise gone, d')
  /\ serve (delete_batch id) d' = (Raise gone, d').
Proof.
  intros Hid d' gone.
  assert (H : batch_with id d' = None).
  { subst d'. rewrite delete_batch_run, Hid.
    destruct (batch_with id d) eqn:E; cbn [snd]; [|exact E].
    unfold batch_with. cbn. now rewrite filter_deleted. }
  rewrite get_raw_weight_run, get_wet_weight_run, get_dry_weight_run,
    get_powder_weight_run, update_delivery_status_run, delete_batch_run, Hid, H.
  repeat apply conj; try reflexivity.
  now apply (proj1 (joined_cases d' id)).
Qed.

Lemma deleted_batch_is_gone_witness :
  let d' := snd (serve (delete_batch 1) linked) in
  let gone := HTTPException 404 "Batch not found" in
  fst (serve (delete_batch 1) linked)
  = Ok (Batch_view (batch_id.set_Package_ID 1 (new_batch_row raw_batch 1)))
  /\ fst (serve (get_raw_weight 1) d') = Raise gone
  /\ fst (serve (get_delivery_info 1) d') = Raise gone
  /\ serve (delete_batch 1) d' = (Raise gone, d').
Proof.
  intros d' gone.
  destruct (deleted_batch_is_gone linked 1 {| UpdateStatus.Status := "sent" |} eq_refl)
    as (Hraw & _ & _ & _ & Hinfo & _ & Hdel).
  repeat apply conj; [reflexivity | exact Hraw | exact Hinfo | exact Hdel].
Defined.

Ltac other_stage_read d id' :=
  cbn [fst]; destruct (in_int64 id'); [|reflexivity];
  unfold batch_with; cbn;
  rewrite first_updated_other by (intros r; reflexivity);
  fold (batch_with id' d);
  destruct (batch_with id' d) as [b|]; cbn; [|reflexivity];
  destruct (has_Batch_ID _ b); reflexivity.

(** X13.  Writing one stage of a batch leaves everything else readable as
    before: after PUT /batch/{id}/wet, /dry or /powder, the raw read and the
    reads of the two other stages answer for every batch key what they
    answered before, and the centra and delivery tables are untouched. *)
Theorem stage_write_leaves_other_stages (d : database) (id id' : Z)
    (wet : AddWetWeight.t) (dry : AddDryWeight.t) (powder : AddPowderWeight.t) :
  (let d' := snd (serve (add_wet_weight id wet) d) in
   fst (serve (get_raw_weight id') d') = fst (serve (get_raw_weight id') d)
   /\ fst (serve (get_dry_weight id') d') = fst (serve (get_dry_weight id') d)
   /\ fst (serve (get_powder_weight id') d') = fst (serve (get_powder_weight id') d)
   /\ db_centra d' = db_centra d /\ db_delivery d' = db_delivery d)
  /\ (let d' := snd (serve (add_dry_weight id dry) d) in
      fst (serve (get_raw_weight id') d') = fst (serve (get_raw_weight id') d)
      /\ fst (serve (get_wet_weight id') d') = fst (serve (get_wet_weight id') d)
      /\ fst (serve (get_powder_weight id') d') = fst (serve (get_powder_weight id') d)
      /\ db_centra d' = db_centra d /\ db_delivery d' = db_delivery d)
  /\ (let d' := snd (serve (add_powder_weight id powder) d) in
      fst (serve (get_raw_weight id') d') = fst (serve (get_raw_weight id') d)
      /\ fst (serve (get_wet_weight id') d') = fst (serve (get_wet_weight id') d)
      /\ fst (serve (get_dry_weight id') d') = fst (serve (get_dry_weight id') d)
      /\ db_centra d' = db_centra d /\ db_delivery d' = db_delivery d).
Proof.
  rewrite add_wet_weight_run, add_dry_weight_run, add_powder_weight_run.
  destruct (in_int64 (AddWetWeight.WetWeight wet) && in_int64 id);
    destruct (in_int64 (AddDryWeight.DryWeight dry) && in_int64 id);
    destruct (in_int64 (AddPowderWeight.PowderWeight powder) && in_int64 id);
    cbn [snd];
    rewrite !get_raw_weight_run, !get_wet_weight_run, !get_dry_weight_run,
      !get_powder_weight_run;
    repeat apply conj; try reflexivity; other_stage_read d id'.
Qed.

(** X14.  Writing a stage of a batch leaves the same stage of every other
    batch as it was. *)
Theorem stage_write_leaves_other_batches (d : database) (id id' : Z)
    (wet : AddWetWeight.t) (dry : AddDryWeight.t) (powder : AddPowderWeight.t) :
  id' <> id ->
  fst (serve (get_wet_weight id') (snd (serve (add_wet_weight id wet) d)))
  = fst (serve (get_wet_weight id') d)
  /\ fst (serve (get_dry_weight id') (snd (serve (add_dry_weight id dry) d)))
     = fst (serve (get_dry_weight id') d)
  /\ fst (serve (get_powder_weight id') (snd (serve (add_powder_weight id powder) d)))
     = fst (serve (get_powder_weight id') d).
Proof.
  intros Hne.
  rewrite add_wet_weight_run, add_dry_weight_run, add_powder_weight_run.
  destruct (in_int64 (AddWetWeight.WetWeight wet) && in_int64 id);
    destruct (in_int64 (AddDryWeight.DryWeight dry) && in_int64 id);
    destruct (in_int64 (AddPowderWeight.PowderWeight powder) && in_int64 id);
    cbn [snd];
    rewrite !get_wet_weight_run, !get_dry_weight_run, !get_powder_weight_run;
    cbn [fst];
    repeat apply conj; try reflexivity.
  all: destruct (in_int64 id'); [|reflexivity];
    unfold batch_with; cbn;
    rewrite first_updated_other by (intros r; reflexivity);
    fold (batch_with id' d);
    destruct (batch_with id' d) as [b|] eqn:E; cbn; [|reflexivity];
    apply batch_with_key in E; unfold has_Batch_ID;
    replace (batch_id.Batch_ID b =? id) with false by (symmetry; lia);
    reflexivity.
Qed.

Definition a_wet : AddWetWeight.t :=
  {| AddWetWeight.InTimeWet := "2024-05-02 08:00:00";
     AddWetWeight.OutTimeWet := "2024-05-02 17:00:00";
     AddWetWeight.WetWeight := 50 |}.

Definition a_dry : AddDryWeight.t :=
  {| AddDryWeight.InTimeDry := "2024-05-03 08:00:00";
     AddDryWeight.OutTimeDry := "2024-05-03 17:00:00";
     AddDryWeight.DryWeight := 30 |}.

Definition a_powder : AddPowderWeight.t :=
  {| AddPowderWeight.InTimePowder := "2024-05-04 08:00:00";
     AddPowderWeight.OutTimePowder := "2024-05-04 17:00:00";
     AddPowderWeight.PowderWeight := 20 |}.

Lemma stage_write_leaves_other_batches_witness :
  let wet := {| AddWetWeight.InTimeWet := "2024-05-02 08:00:00";
                AddWetWeight.OutTimeWet := "2024-05-02 17:00:00";
                AddWetWeight.WetWeight := 50 |} in
  fst (serve (get_wet_weight 2) (snd (serve (add_wet_weight 1 wet) three_batches)))
  = fst (serve (get_wet_weight 2) three_batches).
Proof.
  intros wet.
  refine (proj1 (stage_write_leaves_other_batches three_batches 1 2 wet
                   a_dry a_powder _)).
  lia.
Defined.

(** X15.  The last write of a stage wins: when the weight of the second
    request lies in the signed 64-bit range, two PUT requests on the same
    stage of the same batch leave the store as the second one alone does. *)
Theorem last_stage_write_wins (d : database) (id : Z)
    (wet1 wet2 : AddWetWeight.t) (dry1 dry2 : AddDryWeight.t)
    (powder1 powder2 : AddPowderWeight.t) :
  (in_int64 (AddWetWeight.WetWeight wet2) = true ->
   snd (serve (add_wet_weight id wet2) (snd (serve (add_wet_weight id wet1) d)))
   = snd (serve (add_wet_weight id wet2) d))
  /\ (in_int64 (AddDryWeight.DryWeight dry2) = true ->
      snd (serve (add_dry_weight id dry2) (snd (serve (add_dry_weight id dry1) d)))
      = snd (serve (add_dry_weight id dry2) d))
  /\ (in_int64 (AddPowderWeight.PowderWeight powder2) = true ->
      snd (serve (add_powder_weight id powder2)
                 (snd (serve (add_powder_weight id powder1) d)))
      = snd (serve (add_powder_weight id powder2) d)).
Proof.
  repeat apply conj; intros H2.
  - rewrite (add_wet_weight_run d id wet1).
    destruct (in_int64 id) eqn:Hid;
      [|now rewrite andb_false_r, !add_wet_weight_run, Hid, andb_false_r].
    rewrite andb_true_r.
    destruct (in_int64 (AddWetWeight.WetWeight wet1)); cbn [snd]; [|reflexivity].
    rewrite !add_wet_weight_run, H2, Hid. cbn [andb snd].
    unfold with_batch_rows. cbn. f_equal. f_equal.
    rewrite updated_compose by (intros r; reflexivity).
    apply updated_ext; intros r; reflexivity.
  - rewrite (add_dry_weight_run d id dry1).
    destruct (in_int64 id) eqn:Hid;
      [|now rewrite andb_false_r, !add_dry_weight_run, Hid, andb_false_r].
    rewrite andb_true_r.
    destruct (in_int64 (AddDryWeight.DryWeight dry1)); cbn [snd]; [|reflexivity].
    rewrite !add_dry_weight_run, H2, Hid. cbn [andb snd].
    unfold with_batch_rows. cbn. f_equal. f_equal.
    rewrite updated_compose by (intros r; reflexivity).
    apply updated_ext; intros r; reflexivity.
  - rewrite (add_powder_weight_run d id powder1).
    destruct (in_int64 id) eqn:Hid;
      [|now rewrite andb_false_r, !add_powder_weight_run, Hid, andb_false_r].
    rewrite andb_true_r.
    destruct (in_int64 (AddPowderWeight.PowderWeight powder1)); cbn [snd];
      [|reflexivity].
    rewrite !add_powder_weight_run, H2, Hid. cbn [andb snd].
    unfold with_batch_rows. cbn. f_equal. f_equal.
    rewrite updated_compose by (intros r; reflexivity).
    apply updated_ext; intros r; reflexivity.
Qed.

Lemma last_stage_write_wins_witness :
  let later := {| AddWetWeight.InTimeWet := "2024-05-05 08:00:00";
                  AddWetWeight.OutTimeWet := "2024-05-05 17:00:00";
                  AddWetWeight.WetWeight := 60 |} in
  snd (serve (add_wet_weight 1 later) (snd (serve (add_wet_weight 1 a_wet) one_batch)))
  = snd (serve (add_wet_weight 1 later) one_batch)
  /\ fst (serve (get_wet_weight 1) (snd (serve (add_wet_weight 1 later) one_batch)))
     = Ok {| WetWeight.WetWeight := 60;
             WetWeight.InTimeWet := "2024-05-05 08:00:00";
             WetWeight.OutTimeWet := "2024-05-05 17:00:00" |}.
Proof.
  intros later. split; [|reflexivity].
  exact (proj1 (last_stage_write_wins one_batch 1 a_wet later a_dry a_dry
                  a_powder a_powder) eq_refl).
Defined.

(** ** The bulk status update *)



Lemma listed_same_ids (ids ids' : list Z) (b : batch_id.row) :
  (forall id, In id ids <-> In id ids') -> listed ids b = listed ids' b.
Proof.
  intros H. unfold listed.
  destruct (existsb (Z.eqb (batch_id.Batch_ID b)) ids) eqn:E;
    destruct (existsb (Z.eqb (batch_id.Batch_ID b)) ids') eqn:E'; try reflexivity.
  - apply existsb_exists in E as (id & Hin & Hid). apply H in Hin.
    assert (X : existsb (Z.eqb (batch_id.Batch_ID b)) ids' = true)
      by (apply existsb_exists; eauto).
    congruence.
  - apply existsb_exists in E' as (id & Hin & Hid). apply H in Hin.
    assert (X : existsb (Z.eqb (batch_id.Batch_ID b)) ids = true)
      by (apply existsb_exists; eauto).
    congruence.
Qed.

Lemma forallb_same_members (A : Type) (f : A -> bool) (l l' : list A) :
  (forall a, In a l <-> In a l') -> forallb f l = forallb f l'.
Proof.
  intros H.
  destruct (forallb f l) eqn:E; destruct (forallb f l') eqn:E'; try reflexivity.
  - rewrite forallb_forall in E.
    assert (X : forallb f l' = true)
      by (apply forallb_forall; intros a Ha; apply E, H, Ha).
    congruence.
  - rewrite forallb_forall in E'.
    assert (X : forallb f l = true)
      by (apply forallb_forall; intros a Ha; apply E', H, Ha).
    congruence.
Qed.

(** X17.  The store a bulk status update leaves depends only on which keys
    are listed: two lists with the same members (in any order, with or
    without repetitions) and the same Status leave the same store. *)
Theorem bulk_status_ignores_order_and_repeats (d : database) (ids ids' : list Z)
    (s : string) :
  (forall id, In id ids <-> In id ids') ->
  snd (serve (update_batches_status
                {| BatchUpdateStatus.Batch_IDs := ids; BatchUpdateStatus.Status := s |}) d)
  = snd (serve (update_batches_status
                  {| BatchUpdateStatus.Batch_IDs := ids'; BatchUpdateStatus.Status := s |})
               d).
Proof.
  intros H. rewrite !update_batches_status_run. cbn [BatchUpdateStatus.Batch_IDs].
  rewrite (forallb_same_members _ in_int64 ids ids' H).
  destruct (forallb in_int64 ids'); [|reflexivity]. cbn.
  unfold with_batch_rows. f_equal. f_equal.
  unfold updated. apply map_ext. intros b. now rewrite (listed_same_ids ids ids' b H).
Qed.

Lemma bulk_status_ignores_order_and_repeats_witness :
  snd (serve (update_batches_status
                {| BatchUpdateStatus.Batch_IDs := [1; 2; 999];
                   BatchUpdateStatus.Status := "done" |}) three_batches)
  = snd (serve (update_batches_status
                  {| BatchUpdateStatus.Batch_IDs := [999; 2; 1; 2];
                     BatchUpdateStatus.Status := "done" |}) three_batches).
Proof.
  apply (bulk_status_ignores_order_and_repeats three_batches
           [1; 2; 999] [999; 2; 1; 2] "done").
  intros id. cbn. intuition.
Defined.

(** ** Reading a stage *)

(** X18.  For a batch that exists, the read of a stage answers 200 exactly
    when the weight, the in-time and the out-time of that stage are all
    stored; if one of them is NULL the reply is a server error.  The raw read
    always answers 200 with the stored RawWeight and InTimeRaw. *)
Theorem stage_read_needs_whole_stage (d : database) (id : Z) (b : batch_id.row) :
  batch_with id d = Some b ->
  fst (serve (get_raw_weight id) d)
  = Ok {| RawWeight.RawWeight := batch_id.RawWeight b;
          RawWeight.InTimeRaw := batch_id.InTimeRaw b |}
  /\ (forall w i o,
        (batch_id.WetWeight b, batch_id.InTimeWet b, batch_id.OutTimeWet b)
        = (Some w, Some i, Some o)
        <-> fst (serve (get_wet_weight id) d)
            = Ok {| WetWeight.WetWeight := w; WetWeight.InTimeWet := i;
                    WetWeight.OutTimeWet := o |})
  /\ (forall w i o,
        (batch_id.DryWeight b, batch_id.InTimeDry b, batch_id.OutTimeDry b)
        = (Some w, Some i, Some o)
        <-> fst (serve (get_dry_weight id) d)
            = Ok {| DryWeight.DryWeight := w; DryWeight.InTimeDry := i;
                    DryWeight.OutTimeDry := o |})
  /\ (forall w i o,
        (batch_id.PowderWeight b, batch_id.InTimePowder b, batch_id.OutTimePowder b)
        = (Some w, Some i, Some o)
        <-> fst (serve (get_powder_weight id) d)
            = Ok {| PowderWeight.PowderWeight := w; PowderWeight.InTimePowder := i;
                    PowderWeight.OutTimePowder := o |})
  /\ (forall s,
        In s [status_code (fst (serve (get_wet_weight id) d));
              status_code (fst (serve (get_dry_weight id) d));
              status_code (fst (serve (get_powder_weight id) d))] ->
        s = 200 \/ s = 500).
Proof.
  intros Hb.
  rewrite get_raw_weight_run, get_wet_weight_run, get_dry_weight_run,
    get_powder_weight_run, (@batch_with_in_range _ _ _ Hb), Hb.
  cbn [fst]. repeat apply conj.
  - reflexivity.
  - intros w i o.
    destruct (batch_id.WetWeight b), (batch_id.InTimeWet b), (batch_id.OutTimeWet b);
      cbn; split; intros H; try discriminate H; now inversion H.
  - intros w i o.
    destruct (batch_id.DryWeight b), (batch_id.InTimeDry b), (batch_id.OutTimeDry b);
      cbn; split; intros H; try discriminate H; now inversion H.
  - intros w i o.
    destruct (batch_id.PowderWeight b), (batch_id.InTimePowder b),
      (batch_id.OutTimePowder b);
      cbn; split; intros H; try discriminate H; now inversion H.
  - intros s.
    destruct (batch_id.WetWeight b), (batch_id.InTimeWet b), (batch_id.OutTimeWet b),
      (batch_id.DryWeight b), (batch_id.InTimeDry b), (batch_id.OutTimeDry b),
      (batch_id.PowderWeight b), (batch_id.InTimePowder b), (batch_id.OutTimePowder b);
      cbn; intuition.
Qed.

Lemma stage_read_needs_whole_stage_witness :
  fst (serve (get_raw_weight 1) one_batch)
  = Ok {| RawWeight.RawWeight := 120; RawWeight.InTimeRaw := "2024-05-01 08:30:00" |}
  /\ status_code (fst (serve (get_wet_weight 1) one_batch)) = 500.
Proof.
  destruct (stage_read_needs_whole_stage one_batch 1 (new_batch_row raw_batch 1) eq_refl)
    as (Hraw & _ & _ & _ & Hs).
  split; [exact Hraw|].
  destruct (Hs (status_code (fst (serve (get_wet_weight 1) one_batch))))
    as [H|H]; [now left | discriminate H | exact H].
Defined.

(** ** Create, then delete *)





(** ** Deleting what batches refer to *)

(** X20.  Deleting a centra or a package does not touch the batches that
    refer to it: GET /batches and the weights listing of every centra answer
    as before.  With batch keys unique, a batch linked to the deleted package
    still exists and still carries the package key, and its GET
    /batch/{id}/delivery now answers 404. *)
Theorem delete_does_not_cascade (d : database) (id : Z) :
  (let d' := snd (serve (delete_centra id) d) in
   fst (serve get_all_batches d') = fst (serve get_all_batches d)
   /\ forall c, fst (serve (get_last_seven_batches_weights c) d')
                = fst (serve (get_last_seven_batches_weights c) d))
  /\ (let d' := snd (serve (delete_package id) d) in
      fst (serve get_all_batches d') = fst (serve get_all_batches d)
      /\ forall bid b,
           NoDup (map batch_id.Batch_ID (rows (db_batch_id d))) ->
           batch_with bid d = Some b ->
           batch_id.Package_ID b = Some id ->
           batch_with bid d' = Some b
           /\ fst (serve (get_delivery_info bid) d')
              = Raise (HTTPException 404 "Batch not found")).
Proof.
  split.
  - cbv zeta. rewrite delete_centra_run.
    rewrite !get_all_batches_run.
    destruct (in_int64 id); [|split; reflexivity].
    destruct (centra_with id d); cbn [snd fst]; split; try reflexivity;
      intros c; now rewrite !get_last_seven_batches_weights_run.
  - cbv zeta. rewrite delete_package_run.
    destruct (in_int64 id) eqn:Hid.
    + destruct (package_with id d) as [p|] eqn:Hp; cbn [snd].
      * rewrite !get_all_batches_run. split; [reflexivity|].
        intros bid b Hnd Hb Hlink.
        set (d' := with_delivery_rows _ d).
        assert (Hb' : batch_with bid d' = Some b) by exact Hb.
        split; [exact Hb'|].
        destruct (joined_cases d' bid) as (_ & _ & H).
        apply (H b Hnd Hb'). rewrite Hlink.
        unfold package_with, d'. cbn. now rewrite filter_deleted.
      * split; [reflexivity|].
        intros bid b Hnd Hb Hlink. split; [exact Hb|].
        destruct (joined_cases d bid) as (_ & _ & H).
        apply (H b Hnd Hb). now rewrite Hlink.
    + cbn [snd]. split; [reflexivity|].
      intros bid b Hnd Hb Hlink. split; [exact Hb|].
      destruct (joined_cases d bid) as (_ & _ & H).
      apply (H b Hnd Hb). rewrite Hlink.
      change (hd_error (filter (fun x : delivery.row => delivery.Package_ID_64 x =? id)
                               (rows (db_delivery d))) = None).
      now rewrite (out_of_range_unmatched delivery.Package_ID_64 id
                     (rows (db_delivery d)) Hid).
Qed.

Lemma delete_does_not_cascade_witness :
  let d' := snd (serve (delete_package 1) linked) in
  option_map batch_id.Package_ID (batch_with 1 d') = Some (Some 1)
  /\ fst (serve (get_delivery_info 1) d') = Raise (HTTPException 404 "Batch not found").
Proof.
  intros d'.
  destruct (delete_does_not_cascade linked 1) as (_ & _ & H).
  destruct (H 1 (batch_id.set_Package_ID 1 (new_batch_row raw_batch 1))) as [Hb Hget].
  - exact linked_keys_unique.
  - reflexivity.
  - reflexivity.
  - fold d' in Hb, Hget. split; [now rewrite Hb | exact Hget].
Defined.
